(** * resize_logo.py: the image-resize operation

    A shallow embedding of [Play console/resize_logo.py].  The script is a
    single function, [resize_image], that drives three calls of the Pillow
    imaging library inside a [with] block and a [try]/[except] statement,
    and reports on the console.

    The embedding has three layers:
    - [Py]: the Python fragment the script uses (exception classes with
      their inheritance, [isinstance], statements that return or raise,
      [try]/[except] with ordered clauses, [with]);
    - the environment: a file system, the console, the table of open file
      handles, and the calls [Image.open], [Image.resize], [Image.save] and
      [Image.__exit__] of Pillow, which is not part of the repository;
    - the script itself, transcribed statement by statement. *)

From Stdlib Require Import ZArith Ascii String.
From stdpp Require Import gmap strings list fin_maps.

Local Open Scope Z_scope.
Local Open Scope string_scope.
Local Open Scope list_scope.

(** ** Python: exceptions and statements *)

Module Py.

(** The built-in exception classes that can reach the script, and Pillow's
    [UnidentifiedImageError]. *)
Inductive exn_class : Type :=
| BaseException
| Exception
| KeyboardInterrupt
| SystemExit
| OSError
| FileNotFoundError
| PermissionError
| IsADirectoryError
| NotADirectoryError
| UnidentifiedImageError
| ValueError
| TypeError
| MemoryError.

Definition exn_class_eqb (c d : exn_class) : bool :=
  match c, d with
  | BaseException, BaseException
  | Exception, Exception
  | KeyboardInterrupt, KeyboardInterrupt
  | SystemExit, SystemExit
  | OSError, OSError
  | FileNotFoundError, FileNotFoundError
  | PermissionError, PermissionError
  | IsADirectoryError, IsADirectoryError
  | NotADirectoryError, NotADirectoryError
  | UnidentifiedImageError, UnidentifiedImageError
  | ValueError, ValueError
  | TypeError, TypeError
  | MemoryError, MemoryError => true
  | _, _ => false
  end.

(** Method resolution order: the class followed by its bases. *)
Definition mro (c : exn_class) : list exn_class :=
  match c with
  | BaseException => [BaseException]
  | Exception => [Exception; BaseException]
  | KeyboardInterrupt => [KeyboardInterrupt; BaseException]
  | SystemExit => [SystemExit; BaseException]
  | OSError => [OSError; Exception; BaseException]
  | FileNotFoundError => [FileNotFoundError; OSError; Exception; BaseException]
  | PermissionError => [PermissionError; OSError; Exception; BaseException]
  | IsADirectoryError => [IsADirectoryError; OSError; Exception; BaseException]
  | NotADirectoryError => [NotADirectoryError; OSError; Exception; BaseException]
  | UnidentifiedImageError =>
      [UnidentifiedImageError; OSError; Exception; BaseException]
  | ValueError => [ValueError; Exception; BaseException]
  | TypeError => [TypeError; Exception; BaseException]
  | MemoryError => [MemoryError; Exception; BaseException]
  end.

Definition issubclass (c d : exn_class) : bool :=
  existsb (exn_class_eqb d) (mro c).

(** An exception object: its class and what [str(e)] yields. *)
Record exn : Type := mk_exn { exn_cls : exn_class; exn_str : string }.

Definition isinstance (e : exn) (c : exn_class) : bool :=
  issubclass (exn_cls e) c.

Definition str (e : exn) : string := exn_str e.

(** How a statement or a call ends. *)
Inductive outcome (A : Type) : Type :=
| Returned (a : A)
| Raised (e : exn).
Arguments Returned {A} a.
Arguments Raised {A} e.

(** A statement runs in a state [S] and either returns or raises, leaving
    a new state either way. *)
Section Statements.
Context {S : Type}.

Definition M (A : Type) : Type := S -> outcome A * S.

Definition ret {A} (a : A) : M A := fun s => (Returned a, s).

Definition raise {A} (e : exn) : M A := fun s => (Raised e, s).

(** Sequencing: an exception skips what follows. *)
Definition bind {A B} (m : M A) (k : A -> M B) : M B :=
  fun s =>
    match m s with
    | (Returned a, s1) => k a s1
    | (Raised e, s1) => (Raised e, s1)
    end.

(** [except C as e: h] clauses.  They are tried in the order they are
    written, the first whose class the exception is an instance of runs,
    and an exception that matches none propagates.  An exception raised by
    a handler propagates too. *)
Definition except_clause (A : Type) : Type := (exn_class * (exn -> M A))%type.

Fixpoint dispatch {A} (clauses : list (except_clause A)) (e : exn) : M A :=
  match clauses with
  | [] => raise e
  | (c, h) :: rest => if isinstance e c then h e else dispatch rest e
  end.

Definition try_except {A} (suite : M A) (clauses : list (except_clause A)) : M A :=
  fun s =>
    match suite s with
    | (Returned a, s1) => (Returned a, s1)
    | (Raised e, s1) => dispatch clauses e s1
    end.

(** [with ctx as v: suite], for a context manager whose [__enter__]
    returns the object itself and whose [__exit__] returns [None], so that
    an exception raised by the suite is not suppressed.  [__exit__] runs
    however the suite ends.  When [ctx] itself raises, nothing was entered
    and [__exit__] does not run. *)
Definition with_as {C A} (ctx : M C) (exit : C -> S -> S) (suite : C -> M A) : M A :=
  fun s =>
    match ctx s with
    | (Raised e, s1) => (Raised e, s1)
    | (Returned v, s1) =>
        let (r, s2) := suite v s1 in
        (r, exit v s2)
    end.

End Statements.

Arguments M : clear implicits.

#[global] Instance M_ret {S} : MRet (M S) := fun A => @ret S A.
#[global] Instance M_bind {S} : MBind (M S) := fun A B k m => @bind S A B m k.

End Py.

Import Py.

(** ** The environment: files, console, Pillow *)

(** Pillow's [Image.Resampling] enumeration. *)
Module Resampling.
Inductive t : Type := NEAREST | BOX | BILINEAR | HAMMING | BICUBIC | LANCZOS.
End Resampling.

(** Decoded pixel data with its dimensions [(width, height)].  The script
    never inspects the pixel values. *)
Record bitmap : Type := { bm_size : Z * Z; bm_px : list Z }.

(** An [Image] object: the decoded data and, for an image that came from
    [Image.open], the handle of the file it keeps open. *)
Record image : Type := { im : bitmap; fp : option nat }.

(** What a path of the file system holds. *)
Inductive node : Type :=
| Directory
| ImageFile (b : bitmap)
| OtherFile.

(** The library calls the script makes. *)
Inductive lib_call : Type :=
| CallOpen (p : string)
| CallResize (img : image) (size : Z * Z) (resample : Resampling.t)
| CallSave (img : image) (p : string).

Record World : Type := {
  fs : gmap string node;      (* path -> contents *)
  stdout : list string;       (* one entry per [print] *)
  open_fps : gset nat;        (* file handles currently open *)
  next_fd : nat;              (* next handle the system hands out *)
  calls : list lib_call       (* history of library calls, oldest first *)
}.

Definition set_fs (f : gmap string node) (w : World) : World :=
  {| fs := f; stdout := stdout w; open_fps := open_fps w;
     next_fd := next_fd w; calls := calls w |}.

Definition set_stdout (out : list string) (w : World) : World :=
  {| fs := fs w; stdout := out; open_fps := open_fps w;
     next_fd := next_fd w; calls := calls w |}.

Definition set_open_fps (h : gset nat) (w : World) : World :=
  {| fs := fs w; stdout := stdout w; open_fps := h;
     next_fd := next_fd w; calls := calls w |}.

Definition set_next_fd (n : nat) (w : World) : World :=
  {| fs := fs w; stdout := stdout w; open_fps := open_fps w;
     next_fd := n; calls := calls w |}.

Definition log (c : lib_call) (w : World) : World :=
  {| fs := fs w; stdout := stdout w; open_fps := open_fps w;
     next_fd := next_fd w; calls := calls w ++ [c] |}.

(** What the source does not determine about the library and the system:
    the pixels a resampling filter computes, and failures beyond the ones
    modelled below (no permission, a name the system refuses, a truncated
    input file, no memory, an interrupt).  [fault c = Some e] makes the
    call [c] raise [e] before it has changed anything. *)
Record Env : Type := {
  resample_px : Resampling.t -> bitmap -> Z * Z -> list Z;
  fault : lib_call -> option exn
}.

(** *** Paths

    Paths are compared as they are written: the model does not normalise
    them, so [./x] and [x] are two names.  The separator is ['/'] and the
    errors are those of a POSIX system. *)

(** The parts of [s] before and after its last [c]. *)
Fixpoint rsplit (c : ascii) (s : string) : option (string * string) :=
  match s with
  | EmptyString => None
  | String a rest =>
      match rsplit c rest with
      | Some (x, y) => Some (String a x, y)
      | None => if Ascii.eqb a c then Some (EmptyString, rest) else None
      end
  end.

(** [os.path.basename]. *)
Definition basename (p : string) : string :=
  match rsplit "/"%char p with
  | Some (_, name) => name
  | None => p
  end.

(** The directories on the way to [p], outermost first: the prefixes of
    [p] that end just before a ['/'].  For [a/b/c] they are [a] and
    [a/b]; for [/a] the root, written as the empty prefix. *)
Fixpoint ancestors_from (pre p : string) : list string :=
  match p with
  | EmptyString => []
  | String c rest =>
      if Ascii.eqb c "/"%char
      then pre :: ancestors_from (pre +:+ "/") rest
      else ancestors_from (pre +:+ String c EmptyString) rest
  end.

Definition ancestors (p : string) : list string := ancestors_from "" p.

(** A prefix whose last component is empty, [.] or [..] names a directory
    that is there whenever the prefix before it is: the root, the working
    directory, a directory itself or its parent. *)
Definition always_there (d : string) : bool :=
  let name := basename d in
  String.eqb name "" || String.eqb name "." || String.eqb name "..".

(** What the system finds on the way to a path: directories all along, a
    name that is not there, or a name that is there but is no
    directory. *)
Inductive way : Type := WayOk | WayMissing | WayNotDir.

Fixpoint walk (f : gmap string node) (ds : list string) : way :=
  match ds with
  | [] => WayOk
  | d :: rest =>
      if always_there d then walk f rest
      else match f !! d with
           | Some Directory => walk f rest
           | Some _ => WayNotDir
           | None => WayMissing
           end
  end.

Definition way_to (f : gmap string node) (p : string) : way :=
  walk f (ancestors p).

(** The directory a file would be created in exists. *)
Definition parent_exists (f : gmap string node) (p : string) : bool :=
  match way_to f p with
  | WayOk => true
  | _ => false
  end.

(** *** File extensions and formats *)

Definition lower_ascii (a : ascii) : ascii :=
  let n := nat_of_ascii a in
  if ((65 <=? n) && (n <=? 90))%nat then ascii_of_nat (n + 32) else a.

(** [str.lower] on ASCII strings. *)
Fixpoint lower (s : string) : string :=
  match s with
  | EmptyString => EmptyString
  | String a rest => String (lower_ascii a) (lower rest)
  end.

Fixpoint all_dots (s : string) : bool :=
  match s with
  | EmptyString => true
  | String a rest => Ascii.eqb a "."%char && all_dots rest
  end.

(** [os.path.splitext(p)[1]]: the last dot of the base name and what
    follows it; leading dots of the base name do not start an
    extension. *)
Definition splitext (p : string) : string :=
  match rsplit "."%char (basename p) with
  | Some (stem, e) => if all_dots stem then "" else String "."%char e
  | None => ""
  end.

(** Modelled on Pillow's registry of file extensions, which is not part of
    the repository: the extensions of the formats Pillow can write, with
    the format each selects. *)
Definition EXTENSION : list (string * string) :=
  [ (".png", "PNG"); (".apng", "PNG");
    (".jpg", "JPEG"); (".jpeg", "JPEG"); (".jpe", "JPEG"); (".jfif", "JPEG");
    (".gif", "GIF"); (".bmp", "BMP"); (".dib", "DIB");
    (".tif", "TIFF"); (".tiff", "TIFF"); (".webp", "WEBP");
    (".ico", "ICO"); (".icns", "ICNS"); (".pdf", "PDF");
    (".ppm", "PPM"); (".pgm", "PPM"); (".pbm", "PPM"); (".pnm", "PPM");
    (".tga", "TGA"); (".pcx", "PCX"); (".eps", "EPS"); (".ps", "EPS");
    (".im", "IM"); (".msp", "MSP"); (".sgi", "SGI"); (".xbm", "XBM");
    (".jp2", "JPEG2000"); (".j2k", "JPEG2000"); (".mpo", "MPO") ].

Fixpoint assoc (k : string) (l : list (string * string)) : option string :=
  match l with
  | [] => None
  | (k', v) :: rest => if String.eqb k k' then Some v else assoc k rest
  end.

(** The format [save] picks for a path, from its lower-cased extension. *)
Definition format_of (p : string) : option string :=
  assoc (lower (splitext p)) EXTENSION.

(** The [OSError]s of the system calls under [open] and [save]. *)
Definition ENOENT (p : string) : exn :=
  mk_exn FileNotFoundError ("[Errno 2] No such file or directory: '" +:+ p +:+ "'").

Definition EISDIR (p : string) : exn :=
  mk_exn IsADirectoryError ("[Errno 21] Is a directory: '" +:+ p +:+ "'").

Definition ENOTDIR (p : string) : exn :=
  mk_exn NotADirectoryError ("[Errno 20] Not a directory: '" +:+ p +:+ "'").

(** The error of the system call that opens [p], when the way to [p] is
    not made of directories. *)
Definition way_error (p : string) (y : way) : exn :=
  match y with
  | WayNotDir => ENOTDIR p
  | _ => ENOENT p
  end.

(** The built-in [print] with one string argument; writing to the console
    is taken to succeed. *)
Definition print (s : string) : M World unit :=
  fun w => (Returned tt, set_stdout (stdout w ++ [s]) w).

Module Image.

Module Resampling := Resampling.

Section Pillow.
Variable env : Env.

(** [Image.open(p)].  The built-in [open(p, "rb")] comes first: a path
    that is not there raises [FileNotFoundError], or [NotADirectoryError]
    when a name on the way to it is there but is no directory; a directory
    raises [IsADirectoryError].  A file that is not an image raises
    [UnidentifiedImageError].  Otherwise the file stays open behind the
    image returned.  [fault] stands for every other failure (no
    permission, a name the system refuses, ...). *)
Definition open (p : string) : M World image :=
  fun w0 =>
    let w := log (CallOpen p) w0 in
    match fault env (CallOpen p) with
    | Some e => (Raised e, w)
    | None =>
        match fs w !! p with
        | None => (Raised (way_error p (way_to (fs w) p)), w)
        | Some Directory => (Raised (EISDIR p), w)
        | Some OtherFile =>
            (Raised (mk_exn UnidentifiedImageError
                       ("cannot identify image file '" +:+ p +:+ "'")), w)
        | Some (ImageFile b) =>
            let fd := next_fd w in
            (Returned {| im := b; fp := Some fd |},
             set_next_fd (Datatypes.S fd)
               (set_open_fps ({[fd]} ∪ open_fps w) w))
        end
    end.

(** [img.resize(size, resample)].  Returns a new in-memory image of the
    requested size; a size with a side that is not positive is rejected
    with [ValueError]. *)
Definition resize (img : image) (size : Z * Z) (resample : Resampling.t)
  : M World image :=
  fun w0 =>
    let w := log (CallResize img size resample) w0 in
    match fault env (CallResize img size resample) with
    | Some e => (Raised e, w)
    | None =>
        if ((0 <? fst size) && (0 <? snd size))%Z then
          (Returned {| im := {| bm_size := size;
                                bm_px := resample_px env resample (im img) size |};
                       fp := None |}, w)
        else
          (Raised (mk_exn ValueError "height and width must be > 0"), w)
    end.

(** [img.save(p)].  The format is picked from the extension first: an
    extension that selects none raises [ValueError] before any file is
    touched.  Then the file is opened with the built-in [open(p, "w+b")]:
    a missing directory raises [FileNotFoundError], a name on the way that
    is no directory raises [NotADirectoryError], a directory at [p] raises
    [IsADirectoryError]; otherwise the file is created or overwritten.
    [fault] stands for every other failure that leaves the files as they
    were (no permission to create the file, an interrupt).  A failure after
    the file has been opened (a mode the format cannot take, an encoder
    error, a full disk), which can leave a truncated file behind, is
    outside the model. *)
Definition save (img : image) (p : string) : M World unit :=
  fun w0 =>
    let w := log (CallSave img p) w0 in
    match fault env (CallSave img p) with
    | Some e => (Raised e, w)
    | None =>
        match format_of p with
        | None =>
            (Raised (mk_exn ValueError
                       ("unknown file extension: " +:+ lower (splitext p))), w)
        | Some _ =>
            match way_to (fs w) p with
            | WayOk =>
                match fs w !! p with
                | Some Directory => (Raised (EISDIR p), w)
                | _ => (Returned tt, set_fs (<[p := ImageFile (im img)]> (fs w)) w)
                end
            | y => (Raised (way_error p y), w)
            end
        end
    end.

(** [img.__exit__(...)].  Closes the file behind the image, if there is
    one, and returns [None]. *)
Definition __exit__ (img : image) (w : World) : World :=
  match fp img with
  | Some fd => set_open_fps (open_fps w ∖ {[fd]}) w
  | None => w
  end.

End Pillow.
End Image.

(** ** The interpreter's exit status *)

Fixpoint digits (s : string) (acc : Z) : option Z :=
  match s with
  | EmptyString => Some acc
  | String a rest =>
      let n := nat_of_ascii a in
      if ((48 <=? n) && (n <=? 57))%nat
      then digits rest (10 * acc + Z.of_nat (n - 48))
      else None
  end.

(** The integer a string spells in decimal, if it spells one. *)
Definition int_of_string (s : string) : option Z :=
  match s with
  | EmptyString => None
  | String a rest =>
      if Ascii.eqb a "-"%char
      then match rest with
           | EmptyString => None
           | _ => Z.opp <$> digits rest 0
           end
      else digits s 0
  end.

(** The status of [sys.exit(code)]: 0 for no code, the code for an integer
    (the system keeps its low eight bits), 1 for anything else.  The model
    knows an exception by its class and by [str(e)], which spells the
    code. *)
Definition exit_code (s : string) : Z :=
  if String.eqb s "" || String.eqb s "None" then 0
  else match int_of_string s with
       | Some n => n mod 256
       | None => 1
       end.

(** The status the interpreter ends with when [e] escapes the module: an
    interrupt ends the process by [SIGINT], which a shell reports as
    128 + 2; [SystemExit] carries its own status; anything else is printed
    as a traceback and gives 1. *)
Definition uncaught_status (e : exn) : Z :=
  if isinstance e KeyboardInterrupt then 130
  else if isinstance e SystemExit then exit_code (exn_str e)
  else 1.

(** ** The script *)


Section Script.
Variable env : Env.

(** The suite of the [try] statement:
<<
    with Image.open(input_path) as img:
        resized_img = img.resize(size, Image.Resampling.LANCZOS)
        resized_img.save(output_path)
        print(f"Success! Image saved as {output_path}")
>> *)
Definition resize_image_suite (input_path output_path : string) (size : Z * Z)
  : M World unit :=
  with_as (Image.open env input_path) Image.__exit__ (fun img =>
    resized_img ← Image.resize env img size Image.Resampling.LANCZOS;
    Image.save env resized_img output_path;;
    print ("Success! Image saved as " +:+ output_path)).

(** [def resize_image(input_path, output_path, size=(512, 512))], with its
    two [except] clauses.  [size = None] stands for a call that omits the
    argument. *)
Definition resize_image (input_path output_path : string) (size : option (Z * Z))
  : M World unit :=
  let size := default (512, 512) size in
  try_except (resize_image_suite input_path output_path size)
    [ (FileNotFoundError, fun _ => print "Error: 'logo.png' not found.");
      (Exception, fun e => print ("An error occurred: " +:+ str e)) ].

(** The module body: [if __name__ == "__main__": resize_image(...)]. *)
Definition script (__name__ : string) : M World unit :=
  if String.eqb __name__ "__main__"
  then resize_image "logo.png" "logo_512.png" None
  else mret tt.

(** Running the file as a program: the status the process ends with, as
    a shell reports it.  It is 0 when the module body returns and
    [uncaught_status e] when the exception [e] escapes it. *)
Definition run_script (w : World) : Z * World :=
  match script "__main__" w with
  | (Returned _, w') => (0, w')
  | (Raised e, w') => (uncaught_status e, w')
  end.

End Script.

(** ** Vocabulary of the statements *)

(** The three console messages of the script. *)
Definition success_message (output_path : string) : string :=
  "Success! Image saved as " +:+ output_path.

Definition not_found_message : string := "Error: 'logo.png' not found.".

Definition error_message (e : exn) : string := "An error occurred: " +:+ str e.

(** Python's [sub in s] on strings. *)
Fixpoint contains (sub s : string) : bool :=
  String.prefix sub s ||
  match s with
  | EmptyString => false
  | String _ rest => contains sub rest
  end.

(** A file can be created or overwritten at [p]: the extension selects a
    format, the directory is there and [p] is not a directory. *)
Definition writable (f : gmap string node) (p : string) : bool :=
  match format_of p with Some _ => true | None => false end &&
  parent_exists f p &&
  match f !! p with Some Directory => false | _ => true end.

(** The [resize] calls of a history, with their arguments. *)
Definition resize_calls (h : list lib_call) : list (image * (Z * Z) * Resampling.t) :=
  omap (fun c => match c with
                 | CallResize img size r => Some (img, size, r)
                 | _ => None
                 end) h.

(** The [save] calls of a history, with their arguments. *)
Definition save_calls (h : list lib_call) : list (image * string) :=
  omap (fun c => match c with
                 | CallSave img p => Some (img, p)
                 | _ => None
                 end) h.

(** ** The paths through the [try] suite *)

(** Every run of the suite is one of four: [Image.open] raises; [resize]
    raises; [save] raises; or all three return and the success message is
    printed.  Once the image is open, [__exit__] runs on every path. *)
Inductive suite_run (env : Env) (input_path output_path : string) (size : Z * Z)
  (w : World) : outcome unit -> World -> Prop :=
| open_raises e w1 :
    Image.open env input_path w = (Raised e, w1) ->
    suite_run env input_path output_path size w (Raised e) w1
| resize_raises img w1 e w2 :
    Image.open env input_path w = (Returned img, w1) ->
    Image.resize env img size Resampling.LANCZOS w1 = (Raised e, w2) ->
    suite_run env input_path output_path size w (Raised e) (Image.__exit__ img w2)
| save_raises img w1 resized_img w2 e w3 :
    Image.open env input_path w = (Returned img, w1) ->
    Image.resize env img size Resampling.LANCZOS w1 = (Returned resized_img, w2) ->
    Image.save env resized_img output_path w2 = (Raised e, w3) ->
    suite_run env input_path output_path size w (Raised e) (Image.__exit__ img w3)
| all_return img w1 resized_img w2 w3 :
    Image.open env input_path w = (Returned img, w1) ->
    Image.resize env img size Resampling.LANCZOS w1 = (Returned resized_img, w2) ->
    Image.save env resized_img output_path w2 = (Returned tt, w3) ->
    suite_run env input_path output_path size w (Returned tt)
      (Image.__exit__ img
         (set_stdout (stdout w3 ++ [success_message output_path]) w3)).

(** ** Sample environments and worlds *)

(** An environment in which nothing fails; its resampling records which
    filter produced the pixels. *)
Definition quiet_env : Env :=
  {| resample_px := fun r _ _ =>
       match r with
       | Resampling.NEAREST => [0%Z]
       | Resampling.LANCZOS => [1%Z]
       | Resampling.BILINEAR => [2%Z]
       | Resampling.BICUBIC => [3%Z]
       | Resampling.BOX => [4%Z]
       | Resampling.HAMMING => [5%Z]
       end;
     fault := fun _ => None |}.

(** An environment in which every [save] is refused by the system. *)
Definition denied_env : Env :=
  {| resample_px := resample_px quiet_env;
     fault := fun c =>
       match c with
       | CallSave _ p =>
           Some (mk_exn PermissionError ("[Errno 13] Permission denied: '" +:+ p +:+ "'"))
       | _ => None
       end |}.

Definition logo_1024 : bitmap := {| bm_size := (1024, 1024)%Z; bm_px := [7%Z] |}.

Definition logo_512 : bitmap := {| bm_size := (512, 512)%Z; bm_px := [7%Z] |}.

(** A working directory that holds a 1024x1024 [logo.png] and nothing
    else; handles 0 to 2 are the standard streams. *)
Definition logo_world : World :=
  {| fs := {[ "logo.png" := ImageFile logo_1024 ]};
     stdout := [];
     open_fps := {[ 0%nat; 1%nat; 2%nat ]};
     next_fd := 3;
     calls := [] |}.

(** The same directory with a [logo.png] that is already 512x512. *)
Definition square_world : World :=
  {| fs := {[ "logo.png" := ImageFile logo_512 ]};
     stdout := [];
     open_fps := {[ 0%nat; 1%nat; 2%nat ]};
     next_fd := 3;
     calls := [] |}.

(** An environment in which the user interrupts every [save]. *)
Definition interrupted_env : Env :=
  {| resample_px := resample_px quiet_env;
     fault := fun c =>
       match c with
       | CallSave _ _ => Some (mk_exn KeyboardInterrupt "")
       | _ => None
       end |}.

(** A working directory with the logo, a directory [photos] and a text
    file [notes.txt]. *)
Definition cluttered_world : World :=
  {| fs := <[ "photos" := Directory ]>
             (<[ "notes.txt" := OtherFile ]>
                {[ "logo.png" := ImageFile logo_1024 ]});
     stdout := ["earlier output"];
     open_fps := {[ 0%nat; 1%nat; 2%nat ]};
     next_fd := 3;
     calls := [] |}.

(** A working directory with the logo and a directory whose name ends in
    [.png]. *)
Definition gallery_world : World :=
  {| fs := <[ "shots.png" := Directory ]>
             {[ "logo.png" := ImageFile logo_1024 ]};
     stdout := [];
     open_fps := {[ 0%nat; 1%nat; 2%nat ]};
     next_fd := 3;
     calls := [] |}.

(** Every open handle was handed out by the system: it is below the next
    handle to be handed out. *)
Definition handles_consistent (w : World) : Prop :=
  forall fd, fd ∈ open_fps w -> (fd < next_fd w)%nat.

(** The shapes the library calls of one run can take: [open] alone;
    [open] then [resize]; [open], [resize] of the opened image, then
    [save] of an image of the requested size that has no file behind
    it. *)
Inductive run_history (input_path output_path : string) (size : Z * Z)
  : list lib_call -> Prop :=
| history_open :
    run_history input_path output_path size [CallOpen input_path]
| history_resize img :
    run_history input_path output_path size
      [CallOpen input_path; CallResize img size Resampling.LANCZOS]
| history_save img resized_img :
    bm_size (im resized_img) = size ->
    fp resized_img = None ->
    run_history input_path output_path size
      [CallOpen input_path; CallResize img size Resampling.LANCZOS;
       CallSave resized_img output_path].

(** ** The library calls, one equation per case *)

Section Calls.
Variable env : Env.

Lemma open_missing p w :
  fault env (CallOpen p) = None ->
  fs w !! p = None ->
  Image.open env p w
    = (Raised (way_error p (way_to (fs w) p)), log (CallOpen p) w).
Proof. intros F H. unfold Image.open. simpl. rewrite F, H. reflexivity. Qed.

Lemma open_image p w b :
  fs w !! p = Some (ImageFile b) ->
  fault env (CallOpen p) = None ->
  Image.open env p w =
    (Returned {| im := b; fp := Some (next_fd w) |},
     set_next_fd (S (next_fd w))
       (set_open_fps ({[next_fd w]} ∪ open_fps w) (log (CallOpen p) w))).
Proof. intros H F. unfold Image.open. simpl. rewrite H, F. reflexivity. Qed.

(** [Image.open] touches neither the files nor the console; when it raises
    it holds no handle, when it returns it holds exactly the one stored in
    the image. *)
Lemma open_frame p w :
  match Image.open env p w with
  | (Returned img, w1) =>
      fs w1 = fs w /\ stdout w1 = stdout w /\
      calls w1 = calls w ++ [CallOpen p] /\
      exists fd, fp img = Some fd /\ open_fps w1 = {[fd]} ∪ open_fps w
  | (Raised e, w1) => w1 = log (CallOpen p) w
  end.
Proof.
  unfold Image.open. simpl.
  destruct (fault env (CallOpen p)); [reflexivity |].
  destruct (fs w !! p) as [[ | b | ] | ]; try reflexivity.
  simpl. repeat split; eauto.
Qed.

Lemma resize_ok img size r w :
  fault env (CallResize img size r) = None ->
  (0 < fst size)%Z -> (0 < snd size)%Z ->
  Image.resize env img size r w =
    (Returned {| im := {| bm_size := size;
                          bm_px := resample_px env r (im img) size |};
                 fp := None |},
     log (CallResize img size r) w).
Proof.
  intros F Hw Hh. unfold Image.resize. rewrite F.
  apply Z.ltb_lt in Hw, Hh. rewrite Hw, Hh. reflexivity.
Qed.

(** [resize] changes nothing but the history, and what it returns has the
    requested size and no file behind it. *)
Lemma resize_frame img size r w :
  exists o, Image.resize env img size r w = (o, log (CallResize img size r) w) /\
    match o with
    | Returned img' => bm_size (im img') = size /\ fp img' = None
    | Raised _ => True
    end.
Proof.
  unfold Image.resize.
  destruct (fault env (CallResize img size r)).
  - eexists. split; [reflexivity | exact I].
  - destruct ((0 <? fst size)%Z && (0 <? snd size)%Z);
      eexists; (split; [reflexivity | simpl; auto]).
Qed.

Lemma save_ok img p w :
  fault env (CallSave img p) = None ->
  writable (fs w) p = true ->
  Image.save env img p w =
    (Returned tt, set_fs (<[p := ImageFile (im img)]> (fs w)) (log (CallSave img p) w)).
Proof.
  intros F Hw. unfold Image.save. rewrite F. simpl.
  unfold writable, parent_exists in Hw.
  apply andb_true_iff in Hw as [Hw Hd]. apply andb_true_iff in Hw as [Hf Hp].
  destruct (format_of p); [| discriminate].
  destruct (way_to (fs w) p); try discriminate.
  destruct (fs w !! p) as [[ | | ] | ]; try reflexivity; discriminate.
Qed.

Lemma save_missing_directory img p w :
  fault env (CallSave img p) = None ->
  is_Some (format_of p) ->
  way_to (fs w) p = WayMissing ->
  Image.save env img p w = (Raised (ENOENT p), log (CallSave img p) w).
Proof.
  intros F [fmt Hf] Hp. unfold Image.save. rewrite F, Hf. simpl. rewrite Hp.
  reflexivity.
Qed.

(** [save] either writes the image at [p] and returns, or raises and
    leaves the files as they were. *)
Lemma save_frame img p w :
  Image.save env img p w =
    (Returned tt, set_fs (<[p := ImageFile (im img)]> (fs w)) (log (CallSave img p) w))
  \/ exists e, Image.save env img p w = (Raised e, log (CallSave img p) w).
Proof.
  unfold Image.save. simpl.
  destruct (fault env (CallSave img p)); [eauto |].
  destruct (format_of p); [| eauto].
  destruct (way_to (fs w) p); [| eauto | eauto].
  destruct (fs w !! p) as [[ | | ] | ]; eauto.
Qed.

End Calls.

(** ** The [try] statement *)

Section Paths.
Variable env : Env.

Lemma suite_run_complete input_path output_path size w :
  suite_run env input_path output_path size w
    (resize_image_suite env input_path output_path size w).1
    (resize_image_suite env input_path output_path size w).2.
Proof.
  unfold resize_image_suite, with_as.
  destruct (Image.open env input_path w) as [[img | e] w1] eqn:Ho.
  - unfold mbind, M_bind, bind.
    destruct (Image.resize env img size Resampling.LANCZOS w1)
      as [[resized_img | e] w2] eqn:Hr.
    + destruct (Image.save env resized_img output_path w2) as [[[] | e] w3] eqn:Hs.
      * simpl. eapply all_return; eassumption.
      * simpl. eapply save_raises; eassumption.
    + simpl. eapply resize_raises; eassumption.
  - simpl. apply open_raises. assumption.
Qed.

(** The two [except] clauses, in order. *)
Lemma resize_image_handlers input_path output_path size w :
  resize_image env input_path output_path size w =
    match resize_image_suite env input_path output_path (default (512, 512)%Z size) w with
    | (Returned a, w1) => (Returned a, w1)
    | (Raised e, w1) =>
        if isinstance e FileNotFoundError then print not_found_message w1
        else if isinstance e Exception then print (error_message e) w1
        else (Raised e, w1)
    end.
Proof.
  unfold resize_image, try_except.
  destruct (resize_image_suite _ _ _ _ w) as [[a | e] w1]; [reflexivity |].
  simpl. destruct (isinstance e FileNotFoundError); [reflexivity |].
  destruct (isinstance e Exception); reflexivity.
Qed.

(** [__exit__] changes the table of open handles only. *)
Lemma exit_frame img w :
  fs (Image.__exit__ img w) = fs w /\
  stdout (Image.__exit__ img w) = stdout w /\
  calls (Image.__exit__ img w) = calls w.
Proof. unfold Image.__exit__. destruct (fp img); auto. Qed.

Lemma exit_closes img w fd :
  fp img = Some fd -> open_fps (Image.__exit__ img w) = open_fps w ∖ {[fd]}.
Proof. intros H. unfold Image.__exit__. rewrite H. reflexivity. Qed.

End Paths.

Section Runs.
Variable env : Env.

Lemma suite_open_raises input_path output_path size w e w1 :
  Image.open env input_path w = (Raised e, w1) ->
  resize_image_suite env input_path output_path size w = (Raised e, w1).
Proof. intros H. unfold resize_image_suite, with_as. rewrite H. reflexivity. Qed.

Lemma suite_resize_raises input_path output_path size w img w1 e w2 :
  Image.open env input_path w = (Returned img, w1) ->
  Image.resize env img size Resampling.LANCZOS w1 = (Raised e, w2) ->
  resize_image_suite env input_path output_path size w =
    (Raised e, Image.__exit__ img w2).
Proof.
  intros Ho Hr. unfold resize_image_suite, with_as. rewrite Ho.
  unfold mbind, M_bind, bind. rewrite Hr. reflexivity.
Qed.

Lemma suite_save_raises input_path output_path size w img w1 resized_img w2 e w3 :
  Image.open env input_path w = (Returned img, w1) ->
  Image.resize env img size Resampling.LANCZOS w1 = (Returned resized_img, w2) ->
  Image.save env resized_img output_path w2 = (Raised e, w3) ->
  resize_image_suite env input_path output_path size w =
    (Raised e, Image.__exit__ img w3).
Proof.
  intros Ho Hr Hs. unfold resize_image_suite, with_as. rewrite Ho.
  unfold mbind, M_bind, bind. rewrite Hr, Hs. reflexivity.
Qed.

Lemma suite_all_return input_path output_path size w img w1 resized_img w2 w3 :
  Image.open env input_path w = (Returned img, w1) ->
  Image.resize env img size Resampling.LANCZOS w1 = (Returned resized_img, w2) ->
  Image.save env resized_img output_path w2 = (Returned tt, w3) ->
  resize_image_suite env input_path output_path size w =
    (Returned tt,
     Image.__exit__ img (set_stdout (stdout w3 ++ [success_message output_path]) w3)).
Proof.
  intros Ho Hr Hs. unfold resize_image_suite, with_as. rewrite Ho.
  unfold mbind, M_bind, bind. rewrite Hr, Hs. reflexivity.
Qed.

(** The whole run when [Image.open] raises [FileNotFoundError]. *)
Lemma resize_image_missing_input input_path output_path size w e w1 :
  Image.open env input_path w = (Raised e, w1) ->
  isinstance e FileNotFoundError = true ->
  resize_image env input_path output_path size w =
    (Returned tt,
     set_stdout (stdout w ++ [not_found_message]) (log (CallOpen input_path) w)).
Proof.
  intros Ho Hnf. rewrite resize_image_handlers.
  rewrite (suite_open_raises _ output_path _ _ _ _ Ho). rewrite Hnf.
  pose proof (open_frame env input_path w) as Hf. rewrite Ho in Hf. subst w1.
  reflexivity.
Qed.

(** The handlers only print: files, handles and history are as the suite
    left them. *)
Lemma handlers_frame input_path output_path size w :
  let w1 := (resize_image_suite env input_path output_path
               (default (512, 512)%Z size) w).2 in
  let w' := (resize_image env input_path output_path size w).2 in
  fs w' = fs w1 /\ open_fps w' = open_fps w1 /\ calls w' = calls w1.
Proof.
  rewrite resize_image_handlers.
  destruct (resize_image_suite _ _ _ _ w) as [[a | e] w1]; simpl; [auto |].
  destruct (isinstance e FileNotFoundError); [simpl; auto |].
  destruct (isinstance e Exception); simpl; auto.
Qed.

(** Where the suite leaves the console and the open handles. *)
Lemma suite_effects input_path output_path size w :
  let r := (resize_image_suite env input_path output_path size w).1 in
  let w' := (resize_image_suite env input_path output_path size w).2 in
  stdout w' = match r with
              | Returned _ => stdout w ++ [success_message output_path]
              | Raised _ => stdout w
              end
  /\ match Image.open env input_path w with
     | (Returned img, _) =>
         exists fd, fp img = Some fd /\
                    open_fps w' = ({[fd]} ∪ open_fps w) ∖ {[fd]}
     | (Raised _, _) => open_fps w' = open_fps w
     end.
Proof.
  pose proof (open_frame env input_path w) as Hf.
  destruct (Image.open env input_path w) as [[img | e] w1] eqn:Ho.
  - destruct Hf as (_ & Hout1 & _ & fd & Hfd & Hfps1).
    destruct (resize_frame env img size Resampling.LANCZOS w1) as (o & Hr & _).
    destruct o as [resized_img | e].
    + destruct (save_frame env resized_img output_path
                  (log (CallResize img size Resampling.LANCZOS) w1))
        as [Hs | [e Hs]].
      * rewrite (suite_all_return _ _ _ _ _ _ _ _ _ Ho Hr Hs). cbn [fst snd].
        split; [| exists fd; split; [exact Hfd |]].
        -- unfold Image.__exit__. rewrite Hfd. simpl. rewrite Hout1. reflexivity.
        -- rewrite (exit_closes _ _ _ Hfd). simpl. rewrite Hfps1. reflexivity.
      * rewrite (suite_save_raises _ _ _ _ _ _ _ _ _ _ Ho Hr Hs). cbn [fst snd].
        split; [| exists fd; split; [exact Hfd |]].
        -- unfold Image.__exit__. rewrite Hfd. simpl. exact Hout1.
        -- rewrite (exit_closes _ _ _ Hfd). simpl. rewrite Hfps1. reflexivity.
    + rewrite (suite_resize_raises _ output_path _ _ _ _ _ _ Ho Hr). cbn [fst snd].
      split; [| exists fd; split; [exact Hfd |]].
      * unfold Image.__exit__. rewrite Hfd. simpl. exact Hout1.
      * rewrite (exit_closes _ _ _ Hfd). simpl. rewrite Hfps1. reflexivity.
  - rewrite (suite_open_raises _ output_path size _ _ _ Ho). cbn [fst snd].
    subst w1. split; reflexivity.
Qed.

(** The errors the model raises by itself are ordinary exceptions; with
    an environment whose faults are too, so is whatever the suite raises. *)
Lemma suite_raises_Exception input_path output_path size w e :
  (forall c e, fault env c = Some e -> isinstance e Exception = true) ->
  (resize_image_suite env input_path output_path size w).1 = Raised e ->
  isinstance e Exception = true.
Proof.
  intros Hexc.
  destruct (suite_run_complete env input_path output_path size w)
    as [e' w1 Ho | img w1 e' w2 Ho Hr | img w1 rs w2 e' w3 Ho Hr Hs | img w1 rs w2 w3 Ho Hr Hs];
    intros [= <-].
  - revert Ho. unfold Image.open. simpl.
    destruct (fault env (CallOpen input_path)) eqn:F; [intros [= <- _]; eauto |].
    destruct (fs w !! input_path) as [[ | b | ] |]; try discriminate;
      try (intros [= <- _]; reflexivity).
    destruct (way_to (fs w) input_path); intros [= <- _]; reflexivity.
  - revert Hr. unfold Image.resize.
    destruct (fault env _) eqn:F; [intros [= <- _]; eauto |].
    destruct (_ && _); [discriminate | intros [= <- _]; reflexivity].
  - revert Hs. unfold Image.save. simpl.
    destruct (fault env _) eqn:F; [intros [= <- _]; eauto |].
    destruct (format_of output_path); [| intros [= <- _]; reflexivity].
    destruct (way_to _ _); try (intros [= <- _]; reflexivity).
    destruct (fs w2 !! output_path) as [[ | | ] |]; try discriminate.
    intros [= <- _]; reflexivity.
Qed.

(** Rewrites the files seen through [__exit__] to the files before it. *)
Ltac files_after_exit :=
  match goal with
  | |- context [fs (Image.__exit__ ?i ?x)] =>
      let E := fresh "E" in
      destruct (exit_frame i x) as (E & _); rewrite E; clear E
  end.

(** Where the suite leaves the files: as they were, or with the resized
    image, of exactly the requested size, at the output path. *)
Lemma suite_files input_path output_path size w :
  let w' := (resize_image_suite env input_path output_path size w).2 in
  fs w' = fs w
  \/ exists b', fs w' = <[output_path := ImageFile b']> (fs w) /\ bm_size b' = size.
Proof.
  cbv zeta.
  pose proof (open_frame env input_path w) as Hf.
  destruct (Image.open env input_path w) as [[img | e] w1] eqn:Ho.
  - destruct Hf as (Hfs1 & _).
    destruct (resize_frame env img size Resampling.LANCZOS w1) as (o & Hr & Hsz).
    destruct o as [resized_img | e].
    + destruct Hsz as [Hsz _].
      destruct (save_frame env resized_img output_path
                  (log (CallResize img size Resampling.LANCZOS) w1))
        as [Hs | [e Hs]].
      * rewrite (suite_all_return _ _ _ _ _ _ _ _ _ Ho Hr Hs). cbn [snd].
        right. exists (im resized_img). split; [| exact Hsz].
        files_after_exit. simpl. rewrite Hfs1. reflexivity.
      * rewrite (suite_save_raises _ _ _ _ _ _ _ _ _ _ Ho Hr Hs). cbn [snd].
        left. files_after_exit. exact Hfs1.
    + rewrite (suite_resize_raises _ output_path _ _ _ _ _ _ Ho Hr). cbn [snd].
      left. files_after_exit. exact Hfs1.
  - rewrite (suite_open_raises _ output_path size _ _ _ Ho). cbn [snd].
    subst w1. left. reflexivity.
Qed.

(** The whole run when nothing fails: a valid input image, a positive
    size, a writable output path and no fault of the environment. *)
Lemma resize_image_success input_path output_path size w b :
  (forall c, fault env c = None) ->
  fs w !! input_path = Some (ImageFile b) ->
  (0 < fst (default (512, 512)%Z size))%Z ->
  (0 < snd (default (512, 512)%Z size))%Z ->
  writable (fs w) output_path = true ->
  let sz := default (512, 512)%Z size in
  let img := {| im := b; fp := Some (next_fd w) |} in
  let resized_img :=
    {| im := {| bm_size := sz; bm_px := resample_px env Resampling.LANCZOS b sz |};
       fp := None |} in
  exists w',
    resize_image env input_path output_path size w = (Returned tt, w')
    /\ fs w' = <[output_path := ImageFile (im resized_img)]> (fs w)
    /\ stdout w' = stdout w ++ [success_message output_path]
    /\ calls w' = calls w ++ [CallOpen input_path;
                              CallResize img sz Resampling.LANCZOS;
                              CallSave resized_img output_path].
Proof.
  intros Hquiet Hin Hw Hh Hout sz img resized_img.
  rewrite resize_image_handlers. fold sz.
  set (w1 := set_next_fd (S (next_fd w))
               (set_open_fps ({[next_fd w]} ∪ open_fps w)
                  (log (CallOpen input_path) w))).
  set (w2 := log (CallResize img sz Resampling.LANCZOS) w1).
  assert (Ho : Image.open env input_path w = (Returned img, w1))
    by exact (open_image env input_path w b Hin (Hquiet _)).
  assert (Hr : Image.resize env img sz Resampling.LANCZOS w1
               = (Returned resized_img, w2))
    by exact (resize_ok env img sz Resampling.LANCZOS w1 (Hquiet _) Hw Hh).
  assert (Hs : Image.save env resized_img output_path w2
               = (Returned tt,
                  set_fs (<[output_path := ImageFile (im resized_img)]> (fs w2))
                    (log (CallSave resized_img output_path) w2)))
    by exact (save_ok env resized_img output_path w2 (Hquiet _) Hout).
  rewrite (suite_all_return _ _ _ _ _ _ _ _ _ Ho Hr Hs).
  eexists. split; [reflexivity |].
  unfold Image.__exit__. simpl. rewrite <- !app_assoc. auto.
Qed.

(** The whole run when only a directory on the way to the output path is
    missing:
    [save] raises [FileNotFoundError], which the first [except] clause
    takes. *)
Lemma resize_image_missing_directory input_path output_path size w b :
  (forall c, fault env c = None) ->
  fs w !! input_path = Some (ImageFile b) ->
  (0 < fst (default (512, 512)%Z size))%Z ->
  (0 < snd (default (512, 512)%Z size))%Z ->
  is_Some (format_of output_path) ->
  way_to (fs w) output_path = WayMissing ->
  (resize_image_suite env input_path output_path (default (512, 512)%Z size) w).1
    = Raised (ENOENT output_path)
  /\ exists w',
      resize_image env input_path output_path size w = (Returned tt, w')
      /\ stdout w' = stdout w ++ [not_found_message]
      /\ fs w' = fs w.
Proof.
  intros Hquiet Hin Hw Hh Hfmt Hdir.
  set (sz := default (512, 512)%Z size) in *.
  set (img := {| im := b; fp := Some (next_fd w) |}).
  set (w1 := set_next_fd (S (next_fd w))
               (set_open_fps ({[next_fd w]} ∪ open_fps w)
                  (log (CallOpen input_path) w))).
  set (w2 := log (CallResize img sz Resampling.LANCZOS) w1).
  assert (Ho : Image.open env input_path w = (Returned img, w1))
    by exact (open_image env input_path w b Hin (Hquiet _)).
  set (resized_img :=
         {| im := {| bm_size := sz;
                     bm_px := resample_px env Resampling.LANCZOS b sz |};
            fp := None |}).
  assert (Hr : Image.resize env img sz Resampling.LANCZOS w1
               = (Returned resized_img, w2))
    by exact (resize_ok env img sz Resampling.LANCZOS w1 (Hquiet _) Hw Hh).
  pose proof (save_missing_directory env resized_img output_path w2
                (Hquiet _) Hfmt Hdir) as Hs.
  rewrite resize_image_handlers. fold sz.
  rewrite (suite_save_raises _ _ _ _ _ _ _ _ _ _ Ho Hr Hs).
  split; [reflexivity |].
  eexists. split; [reflexivity |].
  unfold Image.__exit__. simpl. auto.
Qed.

(** A failure of [save] that is an ordinary exception but not a
    [FileNotFoundError] (permission denied, a directory at the path, ...)
    is reported by the generic message with the text of the error. *)
Lemma save_failure_reported input_path output_path size w img w1 resized_img w2 e w3 :
  Image.open env input_path w = (Returned img, w1) ->
  Image.resize env img (default (512, 512)%Z size) Resampling.LANCZOS w1
    = (Returned resized_img, w2) ->
  Image.save env resized_img output_path w2 = (Raised e, w3) ->
  isinstance e FileNotFoundError = false ->
  isinstance e Exception = true ->
  resize_image env input_path output_path size w
    = (Returned tt,
       set_stdout (stdout (Image.__exit__ img w3) ++ [error_message e])
         (Image.__exit__ img w3)).
Proof.
  intros Ho Hr Hs Hnf Hex. rewrite resize_image_handlers.
  rewrite (suite_save_raises _ _ _ _ _ _ _ _ _ _ Ho Hr Hs).
  rewrite Hnf, Hex. reflexivity.
Qed.

(** A [resize] that returns has built the image it was asked for. *)
Lemma resize_returns img size r w img' w2 :
  Image.resize env img size r w = (Returned img', w2) ->
  img' = {| im := {| bm_size := size; bm_px := resample_px env r (im img) size |};
            fp := None |}.
Proof.
  unfold Image.resize. destruct (fault env _); [discriminate |].
  destruct (_ && _); [| discriminate]. intros [= <- _]. reflexivity.
Qed.

(** Once the input image is open: the one [resize] call, what [save] is
    given and what can be in the files afterwards. *)
Lemma suite_after_open input_path output_path size w img w1 :
  Image.open env input_path w = (Returned img, w1) ->
  let resized_img :=
    {| im := {| bm_size := size;
                bm_px := resample_px env Resampling.LANCZOS (im img) size |};
       fp := None |} in
  let w' := (resize_image_suite env input_path output_path size w).2 in
  resize_calls (calls w')
    = resize_calls (calls w) ++ [(img, size, Resampling.LANCZOS)]
  /\ (save_calls (calls w') = save_calls (calls w)
      \/ save_calls (calls w')
         = save_calls (calls w) ++ [(resized_img, output_path)])
  /\ (fs w' = fs w
      \/ fs w' = <[output_path := ImageFile (im resized_img)]> (fs w)).
Proof.
  intros Ho resized_img w'. subst w'.
  pose proof (open_frame env input_path w) as Hf. rewrite Ho in Hf.
  destruct Hf as (Hfs1 & _ & Hc1 & _).
  destruct (resize_frame env img size Resampling.LANCZOS w1) as (o & Hr & _).
  assert (Hrc : resize_calls (calls (log (CallResize img size Resampling.LANCZOS) w1))
                = resize_calls (calls w) ++ [(img, size, Resampling.LANCZOS)]).
  { simpl. rewrite Hc1. unfold resize_calls. rewrite !omap_app. simpl.
    rewrite app_nil_r. reflexivity. }
  assert (Hsc : save_calls (calls (log (CallResize img size Resampling.LANCZOS) w1))
                = save_calls (calls w)).
  { simpl. rewrite Hc1. unfold save_calls. rewrite !omap_app. simpl.
    rewrite !app_nil_r. reflexivity. }
  destruct o as [r | e].
  - pose proof (resize_returns _ _ _ _ _ _ Hr) as Er. fold resized_img in Er.
    subst r.
    assert (Hrc3 : resize_calls
                     (calls (log (CallSave resized_img output_path)
                               (log (CallResize img size Resampling.LANCZOS) w1)))
                   = resize_calls (calls w) ++ [(img, size, Resampling.LANCZOS)]).
    { change (calls (log (CallSave resized_img output_path)
                       (log (CallResize img size Resampling.LANCZOS) w1)))
        with (calls (log (CallResize img size Resampling.LANCZOS) w1)
                ++ [CallSave resized_img output_path]).
      unfold resize_calls in *. rewrite omap_app, Hrc. simpl. apply app_nil_r. }
    assert (Hsc3 : save_calls
                     (calls (log (CallSave resized_img output_path)
                               (log (CallResize img size Resampling.LANCZOS) w1)))
                   = save_calls (calls w) ++ [(resized_img, output_path)]).
    { change (calls (log (CallSave resized_img output_path)
                       (log (CallResize img size Resampling.LANCZOS) w1)))
        with (calls (log (CallResize img size Resampling.LANCZOS) w1)
                ++ [CallSave resized_img output_path]).
      unfold save_calls in *. rewrite omap_app, Hsc. reflexivity. }
    destruct (save_frame env resized_img output_path
                (log (CallResize img size Resampling.LANCZOS) w1))
      as [Hs | [e Hs]].
    + rewrite (suite_all_return _ _ _ _ _ _ _ _ _ Ho Hr Hs). cbn [snd].
      match goal with
      | |- context [Image.__exit__ ?i ?x] =>
          destruct (exit_frame i x) as (-> & _ & ->)
      end.
      split; [exact Hrc3 |]. split; [right; exact Hsc3 |].
      right. simpl. rewrite Hfs1. reflexivity.
    + rewrite (suite_save_raises _ _ _ _ _ _ _ _ _ _ Ho Hr Hs). cbn [snd].
      match goal with
      | |- context [Image.__exit__ ?i ?x] =>
          destruct (exit_frame i x) as (-> & _ & ->)
      end.
      split; [exact Hrc3 |]. split; [right; exact Hsc3 |].
      left. exact Hfs1.
  - rewrite (suite_resize_raises _ output_path _ _ _ _ _ _ Ho Hr). cbn [snd].
    match goal with
    | |- context [Image.__exit__ ?i ?x] =>
        destruct (exit_frame i x) as (-> & _ & ->)
    end.
    split; [exact Hrc |]. split; [left; exact Hsc |]. left. exact Hfs1.
Qed.

Lemma prefix_refl (s : string) : String.prefix s s = true.
Proof.
  induction s as [| a s IH]; [reflexivity |].
  simpl. destruct (ascii_dec a a); [exact IH | congruence].
Qed.

Lemma contains_suffix (pre sub : string) : contains sub (pre +:+ sub) = true.
Proof.
  induction pre as [| a pre IH].
  - destruct sub; simpl; [reflexivity |].
    destruct (ascii_dec _ _); [| congruence]. rewrite prefix_refl. reflexivity.
  - change (String a pre +:+ sub) with (String a (pre +:+ sub)).
    simpl. rewrite IH. apply orb_true_r.
Qed.

End Runs.

(** ** Properties of [resize_image] *)

(** C1: for a valid input image and a target size [(wd, ht)] with
    [wd > 0] and [ht > 0], whatever the operation writes is an image of
    exactly that size at the output path: the files are either untouched
    or changed at the output path only, to an image of size [(wd, ht)];
    and when neither the library nor the system fails the image is
    written.  Resizing a 512x512 image to (512, 512) is the instance
    [bm_size b = (512, 512)], [wd = ht = 512]. *)
Theorem output_has_requested_size
  (env : Env) (input_path output_path : string) (wd ht : Z) (b : bitmap) (w : World) :
  fs w !! input_path = Some (ImageFile b) ->
  (0 < wd)%Z -> (0 < ht)%Z ->
  let w' := (resize_image env input_path output_path (Some (wd, ht)) w).2 in
  (fs w' = fs w
   \/ exists b', fs w' = <[output_path := ImageFile b']> (fs w)
                 /\ bm_size b' = (wd, ht))
  /\ ((forall c, fault env c = None) ->
      writable (fs w) output_path = true ->
      exists b', fs w' !! output_path = Some (ImageFile b')
                 /\ bm_size b' = (wd, ht)).
Proof.
  intros Hin Hw Hh w'. subst w'. split.
  - destruct (handlers_frame env input_path output_path (Some (wd, ht)) w)
      as (-> & _).
    apply suite_files.
  - intros Hquiet Hout.
    destruct (resize_image_success env input_path output_path (Some (wd, ht)) w b
                Hquiet Hin Hw Hh Hout) as (w' & -> & Hfs & _).
    cbn [snd]. rewrite Hfs, lookup_insert_eq. eexists. split; reflexivity.
Qed.

(** C2, as stated, fails on the code: a path under a regular file does not
    resolve to an existing file, yet [Image.open] raises
    [NotADirectoryError], not [FileNotFoundError], and the operation prints
    the generic message. *)
Lemma path_under_a_file_is_not_reported_missing :
  fs cluttered_world !! "notes.txt/x.png" = None
  /\ fs cluttered_world !! "notes.txt" = Some OtherFile
  /\ (resize_image_suite quiet_env "notes.txt/x.png" "x_512.png" (512, 512)%Z
        cluttered_world).1
       = Raised (ENOTDIR "notes.txt/x.png")
  /\ isinstance (ENOTDIR "notes.txt/x.png") FileNotFoundError = false
  /\ stdout (resize_image quiet_env "notes.txt/x.png" "x_512.png" None
               cluttered_world).2
       = ["earlier output";
          "An error occurred: [Errno 20] Not a directory: 'notes.txt/x.png'"]
  /\ stdout (resize_image quiet_env "notes.txt/x.png" "x_512.png" None
               cluttered_world).2
       <> stdout cluttered_world ++ [not_found_message].
Proof.
  repeat split; try reflexivity.
  intros H. vm_compute in H. discriminate H.
Qed.

(** C2, amended: when the system finds no such file or directory at the
    input path (the path is not there, no name on the way to it is a
    regular file and nothing else fails), the suite fails with
    [FileNotFoundError]; the operation prints the fixed not-found message,
    writes no file (the file system is unchanged and [save] is never
    called) and returns. *)
Theorem missing_input_reports_not_found
  (env : Env) (input_path output_path : string) (size : option (Z * Z)) (w : World) :
  fault env (CallOpen input_path) = None ->
  fs w !! input_path = None ->
  way_to (fs w) input_path <> WayNotDir ->
  (exists e,
     (resize_image_suite env input_path output_path (default (512, 512)%Z size) w).1
       = Raised e
     /\ exn_cls e = FileNotFoundError) /\
  exists w',
    resize_image env input_path output_path size w = (Returned tt, w')
    /\ stdout w' = stdout w ++ [not_found_message]
    /\ fs w' = fs w
    /\ save_calls (calls w') = save_calls (calls w).
Proof.
  intros F Hmiss Hway.
  assert (Ho : Image.open env input_path w
               = (Raised (ENOENT input_path), log (CallOpen input_path) w)).
  { rewrite (open_missing env _ _ F Hmiss).
    destruct (way_to (fs w) input_path); [reflexivity | reflexivity |].
    destruct (Hway eq_refl). }
  split.
  - exists (ENOENT input_path).
    rewrite (suite_open_raises env _ output_path _ _ _ _ Ho).
    split; reflexivity.
  - rewrite (resize_image_missing_input env _ _ _ _ _ _ Ho eq_refl).
    eexists. split; [reflexivity |]. simpl.
    repeat split. unfold save_calls. rewrite omap_app. simpl.
    apply app_nil_r.
Qed.

(** C3: the code at an unwritable output path.  [logo.png] is there and is
    a valid image, the directory [out] of the output path is not.  [save]
    raises [FileNotFoundError]; the operation prints the not-found message
    about [logo.png], not the generic message with the text of the
    error. *)
Theorem missing_output_directory_prints_not_found :
  fs logo_world !! "logo.png" = Some (ImageFile logo_1024)
  /\ writable (fs logo_world) "out/logo_512.png" = false
  /\ (resize_image_suite quiet_env "logo.png" "out/logo_512.png" (512, 512)%Z
        logo_world).1
       = Raised (ENOENT "out/logo_512.png")
  /\ (resize_image quiet_env "logo.png" "out/logo_512.png" None logo_world).1
       = Returned tt
  /\ stdout (resize_image quiet_env "logo.png" "out/logo_512.png" None logo_world).2
       = ["Error: 'logo.png' not found."]
  /\ stdout (resize_image quiet_env "logo.png" "out/logo_512.png" None logo_world).2
       <> [error_message (ENOENT "out/logo_512.png")].
Proof.
  repeat split; try reflexivity.
  intros H. vm_compute in H. discriminate H.
Qed.

(** C4: whatever the arguments and the file system, as long as the failures
    of the library calls are ordinary exceptions, the operation returns
    normally with [None], having printed exactly one message: the success
    message, the not-found message or the generic error message.  Run as a
    program, the script ends with exit status 0 in each case. *)
Theorem resize_image_always_reports
  (env : Env) (input_path output_path : string) (size : option (Z * Z)) (w : World) :
  (forall c e, fault env c = Some e -> isinstance e Exception = true) ->
  (exists w' msg,
     resize_image env input_path output_path size w = (Returned tt, w')
     /\ stdout w' = stdout w ++ [msg]
     /\ (msg = success_message output_path
         \/ msg = not_found_message
         \/ exists e, msg = error_message e))
  /\ (run_script env w).1 = 0%Z.
Proof.
  intros Hexc.
  assert (Hret : forall i o sz, exists w' msg,
             resize_image env i o sz w = (Returned tt, w')
             /\ stdout w' = stdout w ++ [msg]
             /\ (msg = success_message o \/ msg = not_found_message
                 \/ exists e, msg = error_message e)).
  { intros i o sz. rewrite resize_image_handlers.
    destruct (suite_effects env i o (default (512, 512)%Z sz) w) as [Hout _].
    pose proof (suite_raises_Exception env i o (default (512, 512)%Z sz) w) as Hcls.
    destruct (resize_image_suite env i o (default (512, 512)%Z sz) w)
      as [[[] | e] w1]; cbn [fst snd] in *.
    - exists w1, (success_message o). auto.
    - specialize (Hcls e Hexc eq_refl).
      destruct (isinstance e FileNotFoundError).
      + eexists _, not_found_message. split; [reflexivity |].
        simpl. rewrite Hout. auto.
      + rewrite Hcls. eexists _, (error_message e). split; [reflexivity |].
        simpl. rewrite Hout. eauto. }
  split; [apply Hret |].
  unfold run_script, script. simpl.
  destruct (Hret "logo.png" "logo_512.png" None) as (w' & msg & -> & _).
  reflexivity.
Qed.

(** C5, as stated, fails on the code: [logo.png/icon.png] does not exist,
    but what [Image.open] raises for it is [NotADirectoryError], and the
    message printed is the generic one, with the path in it. *)
Lemma missing_path_can_get_generic_message :
  fs logo_world !! "logo.png/icon.png" = None
  /\ stdout (resize_image quiet_env "logo.png/icon.png" "icon_512.png" None
               logo_world).2
       = ["An error occurred: [Errno 20] Not a directory: 'logo.png/icon.png'"]
  /\ stdout (resize_image quiet_env "logo.png/icon.png" "icon_512.png" None
               logo_world).2
       <> stdout logo_world ++ ["Error: 'logo.png' not found."].
Proof.
  repeat split; try reflexivity.
  intros H. vm_compute in H. discriminate H.
Qed.

(** C5, amended: whenever [Image.open] raises [FileNotFoundError] for the
    input path, the message printed is the literal
    [Error: 'logo.png' not found.] whatever the input path is: the file it
    names is [logo.png], not the path the operation was given. *)
Theorem not_found_message_is_fixed
  (env : Env) (input_path output_path : string) (size : option (Z * Z))
  (w : World) (e : exn) (w1 : World) :
  Image.open env input_path w = (Raised e, w1) ->
  isinstance e FileNotFoundError = true ->
  stdout (resize_image env input_path output_path size w).2
    = stdout w ++ ["Error: 'logo.png' not found."].
Proof.
  intros Ho Hnf. rewrite (resize_image_missing_input env _ _ _ _ _ _ Ho Hnf).
  reflexivity.
Qed.


(** C7: when open, resample and save all complete, the operation prints
    one message, [Success! Image saved as <output_path>], which contains
    the output path. *)
Theorem success_message_names_output
  (env : Env) (input_path output_path : string) (size : option (Z * Z))
  (w : World) (img : image) (w1 : World) (resized_img : image) (w2 w3 : World) :
  Image.open env input_path w = (Returned img, w1) ->
  Image.resize env img (default (512, 512)%Z size) Resampling.LANCZOS w1
    = (Returned resized_img, w2) ->
  Image.save env resized_img output_path w2 = (Returned tt, w3) ->
  exists w',
    resize_image env input_path output_path size w = (Returned tt, w')
    /\ stdout w' = stdout w ++ ["Success! Image saved as " +:+ output_path]
    /\ contains output_path ("Success! Image saved as " +:+ output_path) = true.
Proof.
  intros Ho Hr Hs.
  rewrite resize_image_handlers.
  rewrite (suite_all_return env _ _ _ _ _ _ _ _ _ Ho Hr Hs).
  eexists. split; [reflexivity |]. split; [| apply contains_suffix].
  destruct (exit_frame img
    (set_stdout (stdout w3 ++ [success_message output_path]) w3)) as (_ & -> & _).
  simpl.
  pose proof (open_frame env input_path w) as Hf. rewrite Ho in Hf.
  destruct Hf as (_ & Hout1 & _).
  destruct (resize_frame env img (default (512, 512)%Z size) Resampling.LANCZOS w1)
    as (o & Hr' & _).
  rewrite Hr in Hr'. injection Hr' as _ ->.
  destruct (save_frame env resized_img output_path
              (log (CallResize img (default (512, 512)%Z size) Resampling.LANCZOS) w1))
    as [Hs' | [e Hs']]; rewrite Hs in Hs'; [| discriminate].
  injection Hs' as ->. simpl. rewrite Hout1. reflexivity.
Qed.

(** C8: a call that omits the size behaves as the call with size
    [(512, 512)], a pair of positive integers: once the input image is
    open, the size [resize] is asked for is [(512, 512)] when the argument
    is omitted, and the argument when it is given. *)
Theorem default_size_is_512
  (env : Env) (input_path output_path : string) (w : World)
  (img : image) (w1 : World) :
  Image.open env input_path w = (Returned img, w1) ->
  resize_image env input_path output_path None
    = resize_image env input_path output_path (Some (512, 512)%Z)
  /\ resize_calls (calls (resize_image env input_path output_path None w).2)
       = resize_calls (calls w) ++ [(img, (512, 512)%Z, Resampling.LANCZOS)]
  /\ (forall size,
        resize_calls
          (calls (resize_image env input_path output_path (Some size) w).2)
        = resize_calls (calls w) ++ [(img, size, Resampling.LANCZOS)])
  /\ (0 < 512)%Z.
Proof.
  intros Ho. split; [reflexivity |]. split; [| split; [| reflexivity]].
  - destruct (handlers_frame env input_path output_path None w) as (_ & _ & ->).
    exact (proj1 (suite_after_open env input_path output_path (512, 512)%Z
                    w img w1 Ho)).
  - intros size.
    destruct (handlers_frame env input_path output_path (Some size) w)
      as (_ & _ & ->).
    exact (proj1 (suite_after_open env input_path output_path size w img w1 Ho)).
Qed.

(** C9: run as the main program, the script is one call
    [resize_image('logo.png', 'logo_512.png')] with the default size.  With
    a 1024x1024 image at [logo.png] and nothing failing, it opens, resizes
    and saves once each, leaves a 512x512 image at [logo_512.png], prints
    the success message naming [logo_512.png] and exits with status 0. *)
Theorem script_resizes_logo (env : Env) (w : World) (b : bitmap) :
  (forall c, fault env c = None) ->
  fs w !! "logo.png" = Some (ImageFile b) ->
  bm_size b = (1024, 1024)%Z ->
  writable (fs w) "logo_512.png" = true ->
  script env "__main__" = resize_image env "logo.png" "logo_512.png" None
  /\ (run_script env w).1 = 0%Z
  /\ (exists b', fs (run_script env w).2 !! "logo_512.png" = Some (ImageFile b')
                 /\ bm_size b' = (512, 512)%Z)
  /\ stdout (run_script env w).2
       = stdout w ++ ["Success! Image saved as logo_512.png"]
  /\ exists img resized_img,
       im img = b
       /\ calls (run_script env w).2
            = calls w ++ [CallOpen "logo.png";
                          CallResize img (512, 512)%Z Resampling.LANCZOS;
                          CallSave resized_img "logo_512.png"].
Proof.
  intros Hquiet Hin _ Hout.
  split; [reflexivity |].
  unfold run_script, script. simpl.
  destruct (resize_image_success env "logo.png" "logo_512.png" None w b
              Hquiet Hin eq_refl eq_refl Hout) as (w' & -> & Hfs & Hso & Hc).
  cbn [fst snd]. split; [reflexivity |]. split; [| split].
  - rewrite Hfs, lookup_insert_eq. eexists. split; reflexivity.
  - exact Hso.
  - eexists _, _. split; [| exact Hc]. reflexivity.
Qed.

(** X15: on every path out of the operation (success, not found, any other
    failure, even an exception that is not caught) the file behind the
    opened input image has been closed: no handle is open afterwards that
    was not open before, and the handle of the opened image is not. *)
Theorem image_released_on_every_path
  (env : Env) (input_path output_path : string) (size : option (Z * Z)) (w : World) :
  let w' := (resize_image env input_path output_path size w).2 in
  open_fps w' ⊆ open_fps w
  /\ match Image.open env input_path w with
     | (Returned img, _) => exists fd, fp img = Some fd /\ fd ∉ open_fps w'
     | (Raised _, _) => open_fps w' = open_fps w
     end.
Proof.
  intros w'. subst w'.
  destruct (handlers_frame env input_path output_path size w) as (_ & -> & _).
  destruct (suite_effects env input_path output_path (default (512, 512)%Z size) w)
    as [_ Hfps].
  destruct (Image.open env input_path w) as [[img | e] w1].
  - destruct Hfps as (fd & Hfd & ->). split.
    + intros x Hx. apply elem_of_difference in Hx as [Hx Hne].
      apply elem_of_union in Hx as [Hx | Hx]; [contradiction | exact Hx].
    + exists fd. split; [exact Hfd |].
      intros Hx. apply elem_of_difference in Hx as [_ Hne].
      apply Hne, elem_of_singleton. reflexivity.
  - rewrite Hfps. split; reflexivity.
Qed.

(** ** The theorems at concrete inputs *)

Lemma output_has_requested_size_witness :
  fs square_world !! "logo.png" = Some (ImageFile logo_512)
  /\ exists b',
      fs (resize_image quiet_env "logo.png" "logo_512.png" (Some (512, 512)%Z)
            square_world).2 !! "logo_512.png" = Some (ImageFile b')
      /\ bm_size b' = (512, 512)%Z.
Proof.
  split; [reflexivity |].
  refine (proj2 (output_has_requested_size quiet_env "logo.png" "logo_512.png"
                   512 512 logo_512 square_world _ _ _) _ _).
  - reflexivity.
  - reflexivity.
  - reflexivity.
  - intros c. reflexivity.
  - reflexivity.
Defined.

Lemma missing_input_reports_not_found_witness :
  fs cluttered_world !! "thumbs/missing.png" = None
  /\ way_to (fs cluttered_world) "thumbs/missing.png" = WayMissing
  /\ exists w',
      resize_image quiet_env "thumbs/missing.png" "out.png" None cluttered_world
        = (Returned tt, w')
      /\ stdout w' = ["earlier output"; "Error: 'logo.png' not found."]
      /\ fs w' = fs cluttered_world
      /\ save_calls (calls w') = [].
Proof.
  split; [reflexivity |]. split; [reflexivity |].
  refine (proj2 (missing_input_reports_not_found quiet_env "thumbs/missing.png"
                   "out.png" None cluttered_world eq_refl eq_refl _)).
  discriminate.
Defined.

Lemma not_found_message_is_fixed_witness :
  isinstance (ENOENT "missing.png") FileNotFoundError = true
  /\ stdout (resize_image quiet_env "missing.png" "out.png" None logo_world).2
       = ["Error: 'logo.png' not found."].
Proof.
  split; [reflexivity |].
  exact (not_found_message_is_fixed quiet_env "missing.png" "out.png" None
           logo_world (ENOENT "missing.png")
           (Image.open quiet_env "missing.png" logo_world).2 eq_refl eq_refl).
Defined.


Lemma default_size_is_512_witness :
  resize_calls
    (calls (resize_image quiet_env "logo.png" "logo_512.png" None logo_world).2)
  = [({| im := logo_1024; fp := Some 3%nat |}, (512, 512)%Z, Resampling.LANCZOS)].
Proof.
  exact (proj1 (proj2
           (default_size_is_512 quiet_env "logo.png" "logo_512.png" logo_world
              {| im := logo_1024; fp := Some 3%nat |}
              (Image.open quiet_env "logo.png" logo_world).2 eq_refl))).
Defined.

Lemma success_message_names_output_witness :
  exists w',
    resize_image quiet_env "logo.png" "logo_512.png" None logo_world
      = (Returned tt, w')
    /\ stdout w' = ["Success! Image saved as logo_512.png"]
    /\ contains "logo_512.png" "Success! Image saved as logo_512.png" = true.
Proof.
  pose (img := {| im := logo_1024; fp := Some 3%nat |}).
  pose (w1 := (Image.open quiet_env "logo.png" logo_world).2).
  pose (resized_img :=
          {| im := {| bm_size := (512, 512)%Z; bm_px := [1%Z] |}; fp := None |}).
  pose (w2 := (Image.resize quiet_env img (512, 512)%Z Resampling.LANCZOS w1).2).
  pose (w3 := (Image.save quiet_env resized_img "logo_512.png" w2).2).
  exact (success_message_names_output quiet_env "logo.png" "logo_512.png" None
           logo_world img w1 resized_img w2 w3 eq_refl eq_refl eq_refl).
Defined.

Lemma resize_image_always_reports_witness :
  (forall c e, fault denied_env c = Some e -> isinstance e Exception = true)
  /\ stdout (resize_image denied_env "logo.png" "logo_512.png" None logo_world).2
       = ["An error occurred: [Errno 13] Permission denied: 'logo_512.png'"]
  /\ (run_script denied_env logo_world).1 = 0%Z.
Proof.
  assert (H : forall c e, fault denied_env c = Some e -> isinstance e Exception = true).
  { intros [p | img size r | img p] e; simpl; intros E;
      [discriminate | discriminate |].
    injection E as <-. reflexivity. }
  split; [exact H |]. split; [reflexivity |].
  exact (proj2 (resize_image_always_reports denied_env "logo.png" "logo_512.png"
                  None logo_world H)).
Defined.

Lemma script_resizes_logo_witness :
  fs logo_world !! "logo.png" = Some (ImageFile logo_1024)
  /\ (exists b',
        fs (run_script quiet_env logo_world).2 !! "logo_512.png" = Some (ImageFile b')
        /\ bm_size b' = (512, 512)%Z)
  /\ stdout (run_script quiet_env logo_world).2
       = ["Success! Image saved as logo_512.png"].
Proof.
  split; [reflexivity |].
  destruct (script_resizes_logo quiet_env logo_world logo_1024
              (fun _ => eq_refl) eq_refl eq_refl eq_refl)
    as (_ & _ & Hfile & Hout & _).
  split; [exact Hfile | exact Hout].
Defined.

(** ** Further properties of the runs *)

(** Rewrites what is seen through [__exit__] (files, console, history) to
    what was there before it. *)
Ltac through_exit :=
  match goal with
  | |- context [Image.__exit__ ?i ?x] =>
      let Ef := fresh "Ef" in
      let Es := fresh "Es" in
      let Ec := fresh "Ec" in
      destruct (exit_frame i x) as (Ef & Es & Ec);
      rewrite ?Ef, ?Es, ?Ec; clear Ef Es Ec
  end.

Section MoreRuns.
Variable env : Env.

Lemma FileNotFoundError_is_Exception e :
  isinstance e FileNotFoundError = true -> isinstance e Exception = true.
Proof. destruct e as [[] s]; simpl; intros H; (discriminate H || reflexivity). Qed.

(** What the three calls and [__exit__] do to the next handle. *)
Lemma suite_next_fd input_path output_path size w :
  let w' := (resize_image_suite env input_path output_path size w).2 in
  match Image.open env input_path w with
  | (Returned _, _) => next_fd w' = S (next_fd w)
  | (Raised _, _) => next_fd w' = next_fd w
  end.
Proof.
  cbv zeta.
  destruct (Image.open env input_path w) as [[img | e] w1] eqn:Ho.
  - assert (Hn : next_fd w1 = S (next_fd w)).
    { revert Ho. unfold Image.open. simpl.
      destruct (fs w !! input_path) as [[ | b | ] | ]; try discriminate;
        destruct (fault env _); try discriminate.
      intros [= _ <-]. reflexivity. }
    destruct (resize_frame env img size Resampling.LANCZOS w1) as (o & Hr & _).
    destruct o as [resized_img | e].
    + destruct (save_frame env resized_img output_path
                  (log (CallResize img size Resampling.LANCZOS) w1))
        as [Hs | [e Hs]].
      * rewrite (suite_all_return env _ _ _ _ _ _ _ _ _ Ho Hr Hs). cbn [snd].
        unfold Image.__exit__. destruct (fp img); exact Hn.
      * rewrite (suite_save_raises env _ _ _ _ _ _ _ _ _ _ Ho Hr Hs). cbn [snd].
        unfold Image.__exit__. destruct (fp img); exact Hn.
    + rewrite (suite_resize_raises env _ output_path _ _ _ _ _ _ Ho Hr). cbn [snd].
      unfold Image.__exit__. destruct (fp img); exact Hn.
  - rewrite (suite_open_raises env _ output_path size _ _ _ Ho). cbn [snd].
    pose proof (open_frame env input_path w) as Hf. rewrite Ho in Hf.
    subst w1. reflexivity.
Qed.

(** The library calls of the suite, in order. *)
Lemma suite_history input_path output_path size w :
  exists h,
    calls (resize_image_suite env input_path output_path size w).2 = calls w ++ h
    /\ run_history input_path output_path size h.
Proof.
  pose proof (open_frame env input_path w) as Hf.
  destruct (Image.open env input_path w) as [[img | e] w1] eqn:Ho.
  - destruct Hf as (_ & _ & Hc1 & _).
    destruct (resize_frame env img size Resampling.LANCZOS w1) as (o & Hr & Hsz).
    destruct o as [resized_img | e].
    + destruct Hsz as [Hsz Hfp].
      assert (Hc3 : calls (log (CallSave resized_img output_path)
                             (log (CallResize img size Resampling.LANCZOS) w1))
                    = calls w ++ [CallOpen input_path;
                                  CallResize img size Resampling.LANCZOS;
                                  CallSave resized_img output_path]).
      { simpl. rewrite Hc1, <- !app_assoc. reflexivity. }
      exists [CallOpen input_path; CallResize img size Resampling.LANCZOS;
              CallSave resized_img output_path].
      split; [| apply history_save; assumption].
      destruct (save_frame env resized_img output_path
                  (log (CallResize img size Resampling.LANCZOS) w1))
        as [Hs | [e Hs]].
      * rewrite (suite_all_return env _ _ _ _ _ _ _ _ _ Ho Hr Hs). cbn [snd].
        through_exit.
        exact Hc3.
      * rewrite (suite_save_raises env _ _ _ _ _ _ _ _ _ _ Ho Hr Hs). cbn [snd].
        through_exit.
        exact Hc3.
    + exists [CallOpen input_path; CallResize img size Resampling.LANCZOS].
      split; [| apply history_resize].
      rewrite (suite_resize_raises env _ output_path _ _ _ _ _ _ Ho Hr). cbn [snd].
      through_exit.
      simpl. rewrite Hc1, <- app_assoc. reflexivity.
  - exists [CallOpen input_path]. split; [| apply history_open].
    rewrite (suite_open_raises env _ output_path size _ _ _ Ho). cbn [snd].
    subst w1. reflexivity.
Qed.

(** When the suite returns, the resized image is at the output path. *)
Lemma suite_returned_files input_path output_path size w :
  (resize_image_suite env input_path output_path size w).1 = Returned tt ->
  exists b',
    fs (resize_image_suite env input_path output_path size w).2
      = <[output_path := ImageFile b']> (fs w)
    /\ bm_size b' = size.
Proof.
  destruct (suite_run_complete env input_path output_path size w)
    as [e w1 Ho | img w1 e w2 Ho Hr | img w1 rs w2 e w3 Ho Hr Hs
        | img w1 rs w2 w3 Ho Hr Hs]; try discriminate.
  intros _.
  pose proof (open_frame env input_path w) as Hf. rewrite Ho in Hf.
  destruct Hf as (Hfs1 & _).
  destruct (resize_frame env img size Resampling.LANCZOS w1) as (o & Hr' & Hsz).
  rewrite Hr in Hr'. injection Hr' as <- ->. destruct Hsz as [Hsz _].
  destruct (save_frame env rs output_path
              (log (CallResize img size Resampling.LANCZOS) w1))
    as [Hs' | [e Hs']]; rewrite Hs in Hs'; [| discriminate].
  injection Hs' as ->.
  exists (im rs). split; [| exact Hsz].
  through_exit. simpl. rewrite Hfs1. reflexivity.
Qed.

Lemma length_append (s t : string) :
  String.length (s +:+ t) = (String.length s + String.length t)%nat.
Proof. induction s as [| a s IH]; simpl; [reflexivity | rewrite IH; reflexivity]. Qed.

(** The directories on the way to a path have shorter names than the
    path. *)
Lemma ancestors_from_shorter pre p d :
  d ∈ ancestors_from pre p ->
  (String.length d < String.length pre + String.length p)%nat.
Proof.
  revert pre. induction p as [| c p IH]; intros pre; simpl.
  - intros H. apply elem_of_nil in H. destruct H.
  - destruct (Ascii.eqb c "/"%char).
    + intros H. apply elem_of_cons in H as [-> | H]; [lia |].
      apply IH in H. rewrite length_append in H. simpl in H. lia.
    + intros H. apply IH in H. rewrite length_append in H. simpl in H. lia.
Qed.

Lemma walk_insert (f : gmap string node) p nd ds :
  (forall d, d ∈ ds -> d <> p) ->
  walk (<[p := nd]> f) ds = walk f ds.
Proof.
  induction ds as [| d ds IH]; intros Hne; simpl; [reflexivity |].
  assert (Hd : p <> d).
  { intros ->. apply (Hne d); [apply list_elem_of_here | reflexivity]. }
  rewrite (lookup_insert_ne f p d nd Hd).
  rewrite IH; [reflexivity |].
  intros d' Hd'. apply Hne. apply list_elem_of_further. exact Hd'.
Qed.

(** Creating a file does not change the way to it. *)
Lemma way_to_insert (f : gmap string node) p nd :
  way_to (<[p := nd]> f) p = way_to f p.
Proof.
  unfold way_to. apply walk_insert.
  intros d Hd ->. apply ancestors_from_shorter in Hd. simpl in Hd. lia.
Qed.

End MoreRuns.

(** ** Further properties of [resize_image] and of the script *)

(** X1: the size is passed to the library unchecked.  With a valid input
    image and a size that has a side that is not positive, [resize]
    rejects the size, the operation prints the generic message with the
    library's text, calls [save] never and leaves the files as they
    were. *)
Theorem nonpositive_size_reported
  (env : Env) (input_path output_path : string) (wd ht : Z) (b : bitmap) (w : World) :
  (forall c, fault env c = None) ->
  fs w !! input_path = Some (ImageFile b) ->
  (wd <= 0 \/ ht <= 0)%Z ->
  exists w',
    resize_image env input_path output_path (Some (wd, ht)) w = (Returned tt, w')
    /\ stdout w' = stdout w ++ ["An error occurred: height and width must be > 0"]
    /\ fs w' = fs w
    /\ save_calls (calls w') = save_calls (calls w).
Proof.
  intros Hquiet Hin Hsize.
  pose proof (open_image env input_path w b Hin (Hquiet _)) as Ho.
  set (img := {| im := b; fp := Some (next_fd w) |}) in *.
  set (w1 := set_next_fd (S (next_fd w))
               (set_open_fps ({[next_fd w]} ∪ open_fps w)
                  (log (CallOpen input_path) w))) in *.
  assert (Hr : Image.resize env img (wd, ht) Resampling.LANCZOS w1
               = (Raised (mk_exn ValueError "height and width must be > 0"),
                  log (CallResize img (wd, ht) Resampling.LANCZOS) w1)).
  { unfold Image.resize. rewrite Hquiet. cbn [fst snd].
    replace ((0 <? wd)%Z && (0 <? ht)%Z) with false; [reflexivity |].
    symmetry. apply andb_false_iff.
    destruct Hsize as [H | H]; [left | right]; apply Z.ltb_ge; exact H. }
  rewrite resize_image_handlers.
  change (default (512, 512)%Z (Some (wd, ht))) with (wd, ht).
  rewrite (suite_resize_raises env _ output_path _ _ _ _ _ _ Ho Hr).
  eexists. split; [reflexivity |].
  unfold Image.__exit__. simpl. repeat split.
  unfold save_calls. rewrite !omap_app. simpl. rewrite !app_nil_r. reflexivity.
Qed.

(** X2: an input path that exists but does not hold an image (a directory,
    or a file that is not an image) is not reported as missing: the
    operation prints the generic message with the error of [Image.open],
    makes no further library call and leaves the files as they were. *)
Theorem unreadable_input_reported
  (env : Env) (input_path output_path : string) (size : option (Z * Z))
  (w : World) (nd : node) :
  fs w !! input_path = Some nd ->
  (forall b, nd <> ImageFile b) ->
  fault env (CallOpen input_path) = None ->
  exists w',
    resize_image env input_path output_path size w = (Returned tt, w')
    /\ stdout w' = stdout w ++
         [match nd with
          | Directory =>
              "An error occurred: [Errno 21] Is a directory: '" +:+ input_path +:+ "'"
          | _ =>
              "An error occurred: cannot identify image file '" +:+ input_path +:+ "'"
          end]
    /\ fs w' = fs w
    /\ calls w' = calls w ++ [CallOpen input_path].
Proof.
  intros Hin Hnd F.
  rewrite resize_image_handlers.
  destruct nd as [| b |].
  - assert (Ho : Image.open env input_path w
                 = (Raised (EISDIR input_path), log (CallOpen input_path) w)).
    { unfold Image.open. simpl. rewrite Hin, F. reflexivity. }
    rewrite (suite_open_raises env _ output_path _ _ _ _ Ho).
    eexists. split; [reflexivity |]. simpl. auto.
  - destruct (Hnd b eq_refl).
  - assert (Ho : Image.open env input_path w
                 = (Raised (mk_exn UnidentifiedImageError
                              ("cannot identify image file '" +:+ input_path +:+ "'")),
                    log (CallOpen input_path) w)).
    { unfold Image.open. simpl. rewrite Hin, F. reflexivity. }
    rewrite (suite_open_raises env _ output_path _ _ _ _ Ho).
    eexists. split; [reflexivity |]. simpl. auto.
Qed.

(** X3: when [open] and [resize] return and [save] raises an ordinary
    exception other than [FileNotFoundError], the operation prints exactly
    the generic message with the text of that exception and returns
    normally. *)
Theorem failed_save_reported
  (env : Env) (input_path output_path : string) (size : option (Z * Z))
  (w : World) (img : image) (w1 : World) (resized_img : image) (w2 : World)
  (e : exn) (w3 : World) :
  Image.open env input_path w = (Returned img, w1) ->
  Image.resize env img (default (512, 512)%Z size) Resampling.LANCZOS w1
    = (Returned resized_img, w2) ->
  Image.save env resized_img output_path w2 = (Raised e, w3) ->
  isinstance e FileNotFoundError = false ->
  isinstance e Exception = true ->
  exists w',
    resize_image env input_path output_path size w = (Returned tt, w')
    /\ stdout w' = stdout w ++ ["An error occurred: " +:+ str e].
Proof.
  intros Ho Hr Hs Hnf Hex.
  rewrite (save_failure_reported env _ _ _ _ _ _ _ _ _ _ Ho Hr Hs Hnf Hex).
  eexists. split; [reflexivity |]. cbn [stdout set_stdout].
  pose proof (open_frame env input_path w) as Hf. rewrite Ho in Hf.
  destruct Hf as (_ & Hout1 & _).
  destruct (resize_frame env img (default (512, 512)%Z size) Resampling.LANCZOS w1)
    as (o & Hr' & _).
  rewrite Hr in Hr'. injection Hr' as _ ->.
  destruct (save_frame env resized_img output_path
              (log (CallResize img (default (512, 512)%Z size) Resampling.LANCZOS) w1))
    as [Hs' | [e' Hs']]; rewrite Hs in Hs'; [discriminate |].
  injection Hs' as _ ->.
  destruct (exit_frame img
              (log (CallSave resized_img output_path)
                 (log (CallResize img (default (512, 512)%Z size)
                         Resampling.LANCZOS) w1))) as (_ & -> & _).
  simpl. rewrite Hout1. reflexivity.
Qed.

(** X4: an output path that is an existing directory, with a name whose
    extension selects a format, is reported by the generic message with
    the system's [Is a directory] error; the directory stays and no file
    is written. *)
Theorem directory_at_output_reported
  (env : Env) (input_path output_path : string) (size : option (Z * Z))
  (w : World) (b : bitmap) :
  (forall c, fault env c = None) ->
  fs w !! input_path = Some (ImageFile b) ->
  (0 < fst (default (512, 512)%Z size))%Z ->
  (0 < snd (default (512, 512)%Z size))%Z ->
  is_Some (format_of output_path) ->
  way_to (fs w) output_path = WayOk ->
  fs w !! output_path = Some Directory ->
  exists w',
    resize_image env input_path output_path size w = (Returned tt, w')
    /\ stdout w' = stdout w ++
         ["An error occurred: [Errno 21] Is a directory: '" +:+ output_path +:+ "'"]
    /\ fs w' = fs w.
Proof.
  intros Hquiet Hin Hw Hh [fmt Hfmt] Hway Hdir.
  set (sz := default (512, 512)%Z size) in *.
  set (img := {| im := b; fp := Some (next_fd w) |}).
  set (w1 := set_next_fd (S (next_fd w))
               (set_open_fps ({[next_fd w]} ∪ open_fps w)
                  (log (CallOpen input_path) w))).
  set (w2 := log (CallResize img sz Resampling.LANCZOS) w1).
  set (resized_img :=
         {| im := {| bm_size := sz;
                     bm_px := resample_px env Resampling.LANCZOS b sz |};
            fp := None |}).
  assert (Ho : Image.open env input_path w = (Returned img, w1))
    by exact (open_image env input_path w b Hin (Hquiet _)).
  assert (Hr : Image.resize env img sz Resampling.LANCZOS w1
               = (Returned resized_img, w2))
    by exact (resize_ok env img sz Resampling.LANCZOS w1 (Hquiet _) Hw Hh).
  assert (Hs : Image.save env resized_img output_path w2
               = (Raised (EISDIR output_path),
                  log (CallSave resized_img output_path) w2)).
  { unfold Image.save. rewrite Hquiet, Hfmt. simpl. rewrite Hway, Hdir.
    reflexivity. }
  rewrite (save_failure_reported env _ _ _ _ _ _ _ _ _ _ Ho Hr Hs eq_refl eq_refl).
  eexists. split; [reflexivity |].
  unfold Image.__exit__. simpl. auto.
Qed.

(** X5: with a valid input image, a positive size, an output path whose
    extension selects a format and whose directory is missing (no name on
    the way to it is a regular file), and no other failure, [save] raises
    [FileNotFoundError] and the operation prints
    [Error: 'logo.png' not found.]; no file is written. *)
Theorem missing_directory_reported_as_missing_logo
  (env : Env) (input_path output_path : string) (size : option (Z * Z))
  (w : World) (b : bitmap) :
  (forall c, fault env c = None) ->
  fs w !! input_path = Some (ImageFile b) ->
  (0 < fst (default (512, 512)%Z size))%Z ->
  (0 < snd (default (512, 512)%Z size))%Z ->
  is_Some (format_of output_path) ->
  way_to (fs w) output_path = WayMissing ->
  exists w',
    resize_image env input_path output_path size w = (Returned tt, w')
    /\ stdout w' = stdout w ++ ["Error: 'logo.png' not found."]
    /\ fs w' = fs w.
Proof.
  intros Hquiet Hin Hw Hh Hfmt Hway.
  exact (proj2 (resize_image_missing_directory env input_path output_path size w b
                  Hquiet Hin Hw Hh Hfmt Hway)).
Qed.

(** X6: an exception that is not an [Exception] (an interrupt, an exit
    request) raised inside the [try] suite is caught by neither clause: it
    leaves [resize_image] and nothing is printed. *)
Theorem uncaught_exception_propagates
  (env : Env) (input_path output_path : string) (size : option (Z * Z))
  (w : World) (e : exn) :
  (resize_image_suite env input_path output_path (default (512, 512)%Z size) w).1
    = Raised e ->
  isinstance e Exception = false ->
  (resize_image env input_path output_path size w).1 = Raised e
  /\ stdout (resize_image env input_path output_path size w).2 = stdout w.
Proof.
  intros Hraise Hnot.
  assert (Hnf : isinstance e FileNotFoundError = false).
  { destruct (isinstance e FileNotFoundError) eqn:E; [| reflexivity].
    apply FileNotFoundError_is_Exception in E. congruence. }
  rewrite resize_image_handlers.
  destruct (suite_effects env input_path output_path (default (512, 512)%Z size) w)
    as [Hout _].
  destruct (resize_image_suite env input_path output_path
              (default (512, 512)%Z size) w) as [[[] | e'] w1];
    cbn [fst snd] in *; [discriminate |].
  injection Hraise as ->. rewrite Hnf, Hnot. cbn [fst snd]. auto.
Qed.

(** X7: run as a program and interrupted, the script reports nothing and
    does not exit normally: when the [try] suite raises a
    [KeyboardInterrupt], no message is printed and the process ends with
    the status of an interrupt, 130. *)
Theorem interrupted_script_status (env : Env) (w : World) (e : exn) :
  (resize_image_suite env "logo.png" "logo_512.png" (512, 512)%Z w).1 = Raised e ->
  isinstance e KeyboardInterrupt = true ->
  (run_script env w).1 = 130%Z
  /\ stdout (run_script env w).2 = stdout w.
Proof.
  intros Hraise Hki.
  assert (Hnf : isinstance e FileNotFoundError = false /\
                isinstance e Exception = false).
  { destruct e as [[] t]; simpl in *; try discriminate Hki; auto. }
  destruct Hnf as [Hnf Hex].
  unfold run_script.
  change (script env "__main__")
    with (resize_image env "logo.png" "logo_512.png" None).
  rewrite resize_image_handlers.
  change (default (512, 512)%Z None) with (512, 512)%Z.
  destruct (suite_effects env "logo.png" "logo_512.png" (512, 512)%Z w)
    as [Hout _].
  destruct (resize_image_suite env "logo.png" "logo_512.png" (512, 512)%Z w)
    as [[[] | e'] w1]; cbn [fst snd] in *; [discriminate |].
  injection Hraise as ->. rewrite Hnf, Hex. cbn [fst snd].
  unfold uncaught_status. rewrite Hki. auto.
Qed.

(** X8: the operation touches no path but the output path: whatever
    happens, every other path holds afterwards what it held before. *)
Theorem other_paths_untouched
  (env : Env) (input_path output_path : string) (size : option (Z * Z))
  (w : World) (p : string) :
  p <> output_path ->
  fs (resize_image env input_path output_path size w).2 !! p = fs w !! p.
Proof.
  intros Hne.
  destruct (handlers_frame env input_path output_path size w) as (-> & _).
  destruct (suite_files env input_path output_path (default (512, 512)%Z size) w)
    as [-> | (b' & -> & _)]; [reflexivity |].
  apply lookup_insert_ne. congruence.
Qed.

(** X9: nothing is retried.  The library calls of one run are [open]
    alone, or [open] and [resize], or [open], [resize] and [save], each
    once and in this order; [resize] is asked for the Lanczos filter and
    the target size, and what [save] is given is an in-memory image of the
    target size for the output path. *)
Theorem each_call_at_most_once
  (env : Env) (input_path output_path : string) (size : option (Z * Z)) (w : World) :
  exists h,
    calls (resize_image env input_path output_path size w).2 = calls w ++ h
    /\ run_history input_path output_path (default (512, 512)%Z size) h.
Proof.
  destruct (handlers_frame env input_path output_path size w) as (_ & _ & ->).
  apply suite_history.
Qed.

(** X11: the table of open handles is restored exactly.  In a world where
    every open handle is below the next one to be handed out, the
    operation ends with the same set of open handles, keeps that
    invariant, and uses up at most one handle number. *)
Theorem handles_restored
  (env : Env) (input_path output_path : string) (size : option (Z * Z)) (w : World) :
  handles_consistent w ->
  let w' := (resize_image env input_path output_path size w).2 in
  open_fps w' = open_fps w
  /\ handles_consistent w'
  /\ (next_fd w <= next_fd w' <= S (next_fd w))%nat.
Proof.
  intros Hwf w'.
  assert (Hnext : next_fd w'
                  = next_fd (resize_image_suite env input_path output_path
                               (default (512, 512)%Z size) w).2).
  { subst w'. rewrite resize_image_handlers.
    destruct (resize_image_suite _ _ _ _ w) as [[a | e] w1]; simpl; [reflexivity |].
    destruct (isinstance e FileNotFoundError); [reflexivity |].
    destruct (isinstance e Exception); reflexivity. }
  destruct (handlers_frame env input_path output_path size w) as (_ & Hfps & _).
  fold w' in Hfps.
  destruct (suite_effects env input_path output_path (default (512, 512)%Z size) w)
    as [_ Hsuite].
  pose proof (suite_next_fd env input_path output_path (default (512, 512)%Z size) w)
    as Hn.
  cbv zeta in Hsuite, Hn.
  assert (Hfd : forall img w1, Image.open env input_path w = (Returned img, w1) ->
                  fp img = Some (next_fd w)).
  { intros img w1. unfold Image.open. simpl.
    destruct (fs w !! input_path) as [[ | b | ] | ]; try discriminate;
      destruct (fault env _); try discriminate.
    intros [= <- _]. reflexivity. }
  assert (Hsame : open_fps w' = open_fps w).
  { rewrite Hfps.
    destruct (Image.open env input_path w) as [[img | e] w1]; [| exact Hsuite].
    destruct Hsuite as (fd & Hfp & ->).
    rewrite (Hfd img w1 eq_refl) in Hfp. injection Hfp as <-.
    apply set_eq. intros x.
    rewrite elem_of_difference, elem_of_union, elem_of_singleton.
    split.
    - intros [[-> | Hx] Hne]; [contradiction Hne; reflexivity | exact Hx].
    - intros Hx. split; [right; exact Hx |].
      intros ->. specialize (Hwf _ Hx). lia. }
  assert (Hrange : (next_fd w <= next_fd w' <= S (next_fd w))%nat).
  { rewrite Hnext.
    destruct (Image.open env input_path w) as [[img | e] w1]; rewrite Hn; lia. }
  split; [exact Hsame |]. split; [| exact Hrange].
  intros fd Hx. rewrite Hsame in Hx. specialize (Hwf _ Hx). lia.
Qed.

(** X12: running the same successful call again changes no file: with an
    output path other than the input path, the second run writes the same
    image over the first one's and prints the success message a second
    time. *)
Theorem rerun_leaves_same_files
  (env : Env) (input_path output_path : string) (size : option (Z * Z))
  (w : World) (b : bitmap) :
  (forall c, fault env c = None) ->
  fs w !! input_path = Some (ImageFile b) ->
  (0 < fst (default (512, 512)%Z size))%Z ->
  (0 < snd (default (512, 512)%Z size))%Z ->
  writable (fs w) output_path = true ->
  input_path <> output_path ->
  let w1 := (resize_image env input_path output_path size w).2 in
  let w2 := (resize_image env input_path output_path size w1).2 in
  fs w2 = fs w1
  /\ stdout w2 = stdout w ++ [success_message output_path; success_message output_path].
Proof.
  intros Hquiet Hin Hw Hh Hout Hne w1 w2.
  destruct (resize_image_success env input_path output_path size w b
              Hquiet Hin Hw Hh Hout) as (w1' & E1 & Hfs1 & Hso1 & _).
  assert (Hw1 : w1 = w1') by (subst w1; rewrite E1; reflexivity).
  rewrite <- Hw1 in Hfs1, Hso1. clear E1 Hw1 w1'.
  cbv zeta in Hfs1.
  assert (Hin1 : fs w1 !! input_path = Some (ImageFile b)).
  { rewrite Hfs1, lookup_insert_ne by congruence. exact Hin. }
  assert (Hout1 : writable (fs w1) output_path = true).
  { unfold writable, parent_exists in *.
    rewrite Hfs1, way_to_insert, lookup_insert_eq.
    apply andb_true_iff in Hout as [-> _]. reflexivity. }
  destruct (resize_image_success env input_path output_path size w1 b
              Hquiet Hin1 Hw Hh Hout1) as (w2' & E2 & Hfs2 & Hso2 & _).
  assert (Hw2 : w2 = w2') by (subst w2; rewrite E2; reflexivity).
  rewrite <- Hw2 in Hfs2, Hso2. clear E2 Hw2 w2'.
  cbv zeta in Hfs2. split.
  - rewrite Hfs2, Hfs1. apply insert_insert_eq.
  - rewrite Hso2, Hso1, <- app_assoc. reflexivity.
Qed.

(** X13: success is never reported for a file that is not there.  If the
    message the operation printed is the success message, then the output
    path holds an image of the target size. *)
Theorem success_message_only_after_write
  (env : Env) (input_path output_path : string) (size : option (Z * Z)) (w : World) :
  stdout (resize_image env input_path output_path size w).2
    = stdout w ++ [success_message output_path] ->
  exists b',
    fs (resize_image env input_path output_path size w).2 !! output_path
      = Some (ImageFile b')
    /\ bm_size b' = default (512, 512)%Z size.
Proof.
  destruct (handlers_frame env input_path output_path size w) as (-> & _).
  rewrite resize_image_handlers.
  destruct (suite_effects env input_path output_path (default (512, 512)%Z size) w)
    as [Hout _].
  pose proof (suite_returned_files env input_path output_path
                (default (512, 512)%Z size) w) as Hret.
  destruct (resize_image_suite env input_path output_path
              (default (512, 512)%Z size) w) as [[[] | e] w1];
    cbn [fst snd] in *.
  - intros _. destruct (Hret eq_refl) as (b' & -> & Hsz).
    exists b'. rewrite lookup_insert_eq. auto.
  - destruct (isinstance e FileNotFoundError).
    + simpl. rewrite Hout. intros H. apply app_inj_tail in H as [_ H].
      discriminate H.
    + destruct (isinstance e Exception); simpl; rewrite Hout; intros H.
      * apply app_inj_tail in H as [_ H]. discriminate H.
      * apply (f_equal length) in H. rewrite length_app in H. simpl in H. lia.
Qed.

(** X14: what is written is the opened image itself, resampled: when
    nothing fails the output path holds the Lanczos resampling of the
    bitmap of the input file to the target size.  The output path may be
    the input path, and the input file is then replaced. *)
Theorem output_is_lanczos_resample_of_input
  (env : Env) (input_path output_path : string) (size : option (Z * Z))
  (w : World) (b : bitmap) :
  (forall c, fault env c = None) ->
  fs w !! input_path = Some (ImageFile b) ->
  (0 < fst (default (512, 512)%Z size))%Z ->
  (0 < snd (default (512, 512)%Z size))%Z ->
  writable (fs w) output_path = true ->
  fs (resize_image env input_path output_path size w).2 !! output_path
  = Some (ImageFile
            {| bm_size := default (512, 512)%Z size;
               bm_px := resample_px env Resampling.LANCZOS b
                          (default (512, 512)%Z size) |}).
Proof.
  intros Hquiet Hin Hw Hh Hout.
  destruct (resize_image_success env input_path output_path size w b
              Hquiet Hin Hw Hh Hout) as (w' & -> & Hfs & _).
  cbn [snd]. rewrite Hfs. apply lookup_insert_eq.
Qed.

(** ** The further properties at concrete inputs *)

Lemma nonpositive_size_reported_witness :
  (0 <= 0 \/ 512 <= 0)%Z
  /\ exists w',
      resize_image quiet_env "logo.png" "logo_512.png" (Some (0, 512)%Z) logo_world
        = (Returned tt, w')
      /\ stdout w' = ["An error occurred: height and width must be > 0"]
      /\ fs w' = fs logo_world
      /\ save_calls (calls w') = [].
Proof.
  assert (H : (0 <= 0 \/ 512 <= 0)%Z) by (left; reflexivity).
  split; [exact H |].
  exact (nonpositive_size_reported quiet_env "logo.png" "logo_512.png" 0 512
           logo_1024 logo_world (fun _ => eq_refl) eq_refl H).
Defined.

Lemma unreadable_input_reported_witness :
  fs cluttered_world !! "notes.txt" = Some OtherFile
  /\ exists w',
      resize_image quiet_env "notes.txt" "notes_512.png" None cluttered_world
        = (Returned tt, w')
      /\ stdout w' = ["earlier output";
                      "An error occurred: cannot identify image file 'notes.txt'"]
      /\ fs w' = fs cluttered_world
      /\ calls w' = [CallOpen "notes.txt"].
Proof.
  split; [reflexivity |].
  refine (unreadable_input_reported quiet_env "notes.txt" "notes_512.png" None
            cluttered_world OtherFile eq_refl _ eq_refl).
  intros b. discriminate.
Defined.

Lemma failed_save_reported_witness :
  exists w',
    resize_image denied_env "logo.png" "logo_512.png" None logo_world
      = (Returned tt, w')
    /\ stdout w' = ["An error occurred: [Errno 13] Permission denied: 'logo_512.png'"].
Proof.
  pose (img := {| im := logo_1024; fp := Some 3%nat |}).
  pose (w1 := (Image.open denied_env "logo.png" logo_world).2).
  pose (resized_img :=
          {| im := {| bm_size := (512, 512)%Z; bm_px := [1%Z] |}; fp := None |}).
  pose (w2 := (Image.resize denied_env img (512, 512)%Z Resampling.LANCZOS w1).2).
  pose (w3 := (Image.save denied_env resized_img "logo_512.png" w2).2).
  exact (failed_save_reported denied_env "logo.png" "logo_512.png" None logo_world
           img w1 resized_img w2
           (mk_exn PermissionError "[Errno 13] Permission denied: 'logo_512.png'")
           w3 eq_refl eq_refl eq_refl eq_refl eq_refl).
Defined.

Lemma directory_at_output_reported_witness :
  fs gallery_world !! "shots.png" = Some Directory
  /\ exists w',
      resize_image quiet_env "logo.png" "shots.png" None gallery_world
        = (Returned tt, w')
      /\ stdout w' = ["An error occurred: [Errno 21] Is a directory: 'shots.png'"]
      /\ fs w' = fs gallery_world.
Proof.
  split; [reflexivity |].
  exact (directory_at_output_reported quiet_env "logo.png" "shots.png" None
           gallery_world logo_1024 (fun _ => eq_refl)
           eq_refl eq_refl eq_refl (ex_intro _ "PNG" eq_refl) eq_refl eq_refl).
Defined.

Lemma missing_directory_reported_as_missing_logo_witness :
  way_to (fs cluttered_world) "thumbs/logo.png" = WayMissing
  /\ exists w',
      resize_image quiet_env "logo.png" "thumbs/logo.png" (Some (64, 64)%Z)
        cluttered_world = (Returned tt, w')
      /\ stdout w' = ["earlier output"; "Error: 'logo.png' not found."]
      /\ fs w' = fs cluttered_world.
Proof.
  split; [reflexivity |].
  exact (missing_directory_reported_as_missing_logo quiet_env "logo.png"
           "thumbs/logo.png" (Some (64, 64)%Z) cluttered_world logo_1024
           (fun _ => eq_refl) eq_refl eq_refl eq_refl
           (ex_intro _ "PNG" eq_refl) eq_refl).
Defined.

Lemma uncaught_exception_propagates_witness :
  isinstance (mk_exn KeyboardInterrupt "") Exception = false
  /\ (resize_image interrupted_env "logo.png" "logo_512.png" None logo_world).1
       = Raised (mk_exn KeyboardInterrupt "")
  /\ stdout (resize_image interrupted_env "logo.png" "logo_512.png" None logo_world).2
       = [].
Proof.
  split; [reflexivity |].
  exact (uncaught_exception_propagates interrupted_env "logo.png" "logo_512.png"
           None logo_world (mk_exn KeyboardInterrupt "") eq_refl eq_refl).
Defined.

Lemma interrupted_script_status_witness :
  (run_script interrupted_env logo_world).1 = 130%Z
  /\ stdout (run_script interrupted_env logo_world).2 = [].
Proof.
  exact (interrupted_script_status interrupted_env logo_world
           (mk_exn KeyboardInterrupt "") eq_refl eq_refl).
Defined.

Lemma other_paths_untouched_witness :
  fs (resize_image quiet_env "logo.png" "logo_512.png" None logo_world).2 !! "logo.png"
  = Some (ImageFile logo_1024).
Proof.
  refine (other_paths_untouched quiet_env "logo.png" "logo_512.png" None
            logo_world "logo.png" _).
  discriminate.
Defined.

Lemma handles_restored_witness :
  handles_consistent logo_world
  /\ open_fps (resize_image quiet_env "logo.png" "logo_512.png" None logo_world).2
       = {[ 0%nat; 1%nat; 2%nat ]}.
Proof.
  assert (H : handles_consistent logo_world).
  { intros fd Hfd. simpl in *.
    apply elem_of_union in Hfd as [Hfd | Hfd];
      [apply elem_of_union in Hfd as [Hfd | Hfd] |];
      apply elem_of_singleton in Hfd; subst fd; lia. }
  split; [exact H |].
  exact (proj1 (handles_restored quiet_env "logo.png" "logo_512.png" None
                  logo_world H)).
Defined.

Lemma rerun_leaves_same_files_witness :
  let w1 := (resize_image quiet_env "logo.png" "logo_512.png" None logo_world).2 in
  let w2 := (resize_image quiet_env "logo.png" "logo_512.png" None w1).2 in
  fs w2 = fs w1
  /\ stdout w2 = ["Success! Image saved as logo_512.png";
                  "Success! Image saved as logo_512.png"].
Proof.
  refine (rerun_leaves_same_files quiet_env "logo.png" "logo_512.png" None
            logo_world logo_1024 (fun _ => eq_refl) eq_refl eq_refl eq_refl eq_refl _).
  discriminate.
Defined.

Lemma success_message_only_after_write_witness :
  exists b',
    fs (resize_image quiet_env "logo.png" "logo_512.png" None logo_world).2
      !! "logo_512.png" = Some (ImageFile b')
    /\ bm_size b' = (512, 512)%Z.
Proof.
  exact (success_message_only_after_write quiet_env "logo.png" "logo_512.png" None
           logo_world eq_refl).
Defined.

Lemma output_is_lanczos_resample_of_input_witness :
  fs logo_world !! "logo.png" = Some (ImageFile logo_1024)
  /\ fs (resize_image quiet_env "logo.png" "logo.png" (Some (64, 32)%Z) logo_world).2
       !! "logo.png"
     = Some (ImageFile {| bm_size := (64, 32)%Z; bm_px := [1%Z] |}).
Proof.
  split; [reflexivity |].
  exact (output_is_lanczos_resample_of_input quiet_env "logo.png" "logo.png"
           (Some (64, 32)%Z) logo_world logo_1024 (fun _ => eq_refl)
           eq_refl eq_refl eq_refl eq_refl).
Defined.
